(** * excel_compare: a shallow embedding of [scripts/excel_compare.py]

    The script compares two workbooks sheet by sheet with pandas.  The
    embedding has two layers:

    - [Pandas]: the pandas operations the script calls ([set_index],
      [drop], [merge], [loc], [compare], [fillna], [concat]), on frames
      with a labelled index that may contain repeated labels;
    - [ExcelCompare]: the methods of the class, written over those
      operations, with the two workbooks of [self] threaded as state
      because the script mutates their frames in place;
    - [Xlsxwriter]: the worksheets the report is written into. *)

From Stdlib Require Import ZArith List String Bool Arith Lia Permutation.
Import ListNotations.
Open Scope string_scope.
Open Scope list_scope.

Set Implicit Arguments.

(** ** Cells, labels and exceptions *)

(** A cell of a sheet: missing ([NaN]), a number or a text. *)
Inductive cell : Type :=
| NaN
| Num (z : Z)
| Str (s : string).

Definition cell_eq_dec (a b : cell) : {a = b} + {a <> b}.
Proof.
  decide equality; [apply Z.eq_dec | apply string_dec].
Defined.

(** Label equality, as pandas' indexes use it: two missing labels match. *)
Definition cell_eqb (a b : cell) : bool :=
  if cell_eq_dec a b then true else false.

(** The order in which pandas sorts join keys: numbers, then texts, then
    missing values. *)
Definition cell_leb (a b : cell) : bool :=
  match a, b with
  | Num x, Num y => (x <=? y)%Z
  | Num _, _ => true
  | Str _, Num _ => false
  | Str s, Str t => String.leb s t
  | Str _, NaN => true
  | NaN, NaN => true
  | NaN, _ => false
  end.

(** The exceptions the script can meet.  [ValueErrorFrom msg e] is a
    [ValueError] raised with [raise ... from e]. *)
Inductive exn : Type :=
| KeyError (label : cell)
| ValueError (msg : string)
| ValueErrorFrom (msg : string) (cause : exn)
| InvalidIndexError.

Inductive result (A : Type) : Type :=
| Ok (a : A)
| Raise (e : exn).

Arguments Ok {A} a.
Arguments Raise {A} e.

Definition rbind {A B} (r : result A) (f : A -> result B) : result B :=
  match r with
  | Ok a => f a
  | Raise e => Raise e
  end.

Notation "x <- r ;; k" := (rbind r (fun x => k))
  (at level 61, r at next level, right associativity).

(** ** Frames *)

Definition row : Type := (cell * list cell)%type.

(** A pandas DataFrame: the name of its index, its column labels and its
    rows, each an index label with one value per column.  [L] is the type
    of column labels: [string] for a sheet, [string * string] for the
    two-level columns of a cell comparison. *)
Record DataFrame (L : Type) : Type := mkDF {
  df_index_name : option string;
  df_columns : list L;
  df_rows : list row
}.

Definition df_index {L} (df : DataFrame L) : list cell := map fst (df_rows df).

(** [DataFrame.empty]: no rows or no columns. *)
Definition df_empty {L} (df : DataFrame L) : bool :=
  match df_rows df, df_columns df with
  | [], _ => true
  | _, [] => true
  | _, _ => false
  end.

Module Pandas.

Definition mem (c : string) (l : list string) : bool :=
  existsb (String.eqb c) l.

Fixpoint index_of (c : string) (cols : list string) : option nat :=
  match cols with
  | [] => None
  | d :: ds => if String.eqb c d then Some 0
               else option_map S (index_of c ds)
  end.

Definition remove_nth {A} (i : nat) (l : list A) : list A :=
  firstn i l ++ skipn (S i) l.

(** Keep the positions of [l] at which [mask] is true. *)
Definition select {A} (mask : list bool) (l : list A) : list A :=
  map snd (filter fst (combine mask l)).

(** [df.index.set_names(name, inplace=True)]. *)
Definition set_names (name : string) (df : DataFrame string) : DataFrame string :=
  mkDF (Some name) (df_columns df) (df_rows df).

(** [df.set_index(name, inplace=True)]: the column becomes the index and
    leaves the columns; [KeyError] when there is no such column. *)
Definition set_index (name : string) (df : DataFrame string)
  : result (DataFrame string) :=
  match index_of name (df_columns df) with
  | None => Raise (KeyError (Str name))
  | Some i =>
      Ok (mkDF (Some name) (remove_nth i (df_columns df))
               (map (fun r : row => (nth i (snd r) NaN, remove_nth i (snd r)))
                    (df_rows df)))
  end.

(** Index set operations; the script uses their results only as sets of
    labels, so the order pandas gives them is not represented. *)
Definition symmetric_difference (a b : list string) : list string :=
  filter (fun c => negb (mem c b)) a ++ filter (fun c => negb (mem c a)) b.

Definition union (a b : list string) : list string :=
  a ++ filter (fun c => negb (mem c a)) b.

Definition intersection (a b : list string) : list string :=
  filter (fun c => mem c b) a.

(** [df.drop(labels, inplace=True, axis=1)] for labels that are all columns
    of [df] (the script passes an intersection with [df.columns], so the
    [KeyError] of a missing label cannot occur). *)
Definition drop (labels : list string) (df : DataFrame string) : DataFrame string :=
  let keep := map (fun c => negb (mem c labels)) (df_columns df) in
  mkDF (df_index_name df) (select keep (df_columns df))
       (map (fun r : row => (fst r, select keep (snd r))) (df_rows df)).

(** *** Outer join with indicator *)

Inductive indicator : Type := left_only | right_only | both.

Definition indicator_eqb (a b : indicator) : bool :=
  match a, b with
  | left_only, left_only | right_only, right_only | both, both => true
  | _, _ => false
  end.

Fixpoint insert_key (k : cell) (l : list cell) : list cell :=
  match l with
  | [] => [k]
  | x :: xs => if cell_leb k x then k :: l else x :: insert_key k xs
  end.

Definition sort_keys (l : list cell) : list cell :=
  fold_right insert_key [] l.

Definition count (k : cell) (l : list cell) : nat := count_occ cell_eq_dec l k.

(** The rows of a full outer join on one key, as (key, [_merge]) pairs:
    keys in sorted order, a key that occurs [m] times on the left and [n]
    times on the right giving [m * n] rows tagged [both]. *)
Definition outer_join (lk rk : list cell) : list (cell * indicator) :=
  flat_map (fun k =>
    match count k lk, count k rk with
    | O, n => repeat (k, right_only) n
    | m, O => repeat (k, left_only) m
    | m, n => repeat (k, both) (m * n)
    end) (sort_keys (nodup cell_eq_dec (lk ++ rk))).

(** How [merge] reads the key [on] from one frame: a column, an index
    level, ambiguous when both, [KeyError] when neither. *)
Inductive key_source : Type :=
| FromIndex (keys : list cell)
| FromColumn (keys : list cell).

Definition label_or_level_values (name : string) (df : DataFrame string)
  : result key_source :=
  let is_level :=
    match df_index_name df with
    | Some n => String.eqb n name
    | None => false
    end in
  match index_of name (df_columns df), is_level with
  | Some _, true =>
      Raise (ValueError "label is both an index level and a column label")
  | Some i, false =>
      Ok (FromColumn (map (fun r : row => nth i (snd r) NaN) (df_rows df)))
  | None, true => Ok (FromIndex (df_index df))
  | None, false => Raise (KeyError (Str name))
  end.

Definition source_keys (s : key_source) : list cell :=
  match s with FromIndex k | FromColumn k => k end.

(** [pd.merge(left, right, on=name, how="outer", indicator=True)], as far
    as the script reads it: the index of the merged frame and its
    [_merge] column.  The index is the join key when [name] is an index
    level of both frames, a fresh range otherwise.  Column labels are taken
    not to collide with the indicator's own name. *)
Definition merge (left right : DataFrame string) (name : string)
  : result (list (cell * indicator)) :=
  rs <- label_or_level_values name right ;;
  ls <- label_or_level_values name left ;;
  let joined := outer_join (source_keys ls) (source_keys rs) in
  match ls, rs with
  | FromIndex _, FromIndex _ => Ok joined
  | _, _ =>
      Ok (combine (map (fun i => Num (Z.of_nat i)) (seq 0 (List.length joined)))
                  (map snd joined))
  end.

(** [df_merged.index[df_merged["_merge"] == tag]]. *)
Definition index_where (tag : indicator) (m : list (cell * indicator)) : list cell :=
  map fst (filter (fun p => indicator_eqb (snd p) tag) m).

(** *** Selection by label *)

Definition rows_at (l : cell) (rows : list row) : list row :=
  filter (fun r : row => cell_eqb (fst r) l) rows.

(** [df.loc[labels]]: for each label in turn, every row carrying it;
    [KeyError] for a label no row carries. *)
Fixpoint loc_rows (labels : list cell) (rows : list row) : result (list row) :=
  match labels with
  | [] => Ok []
  | l :: ls =>
      match rows_at l rows with
      | [] => Raise (KeyError l)
      | hit => rest <- loc_rows ls rows ;; Ok (hit ++ rest)
      end
  end.

Definition loc {L} (labels : list cell) (df : DataFrame L) : result (DataFrame L) :=
  rs <- loc_rows labels (df_rows df) ;;
  Ok (mkDF (df_index_name df) (df_columns df) rs).

Fixpoint positions (names cols : list string) : result (list nat) :=
  match names with
  | [] => Ok []
  | c :: cs =>
      match index_of c cols with
      | None => Raise (KeyError (Str c))
      | Some i => rest <- positions cs cols ;; Ok (i :: rest)
      end
  end.

(** [df.loc[labels, names]]: rows by label, then the named columns in the
    order asked. *)
Definition loc2 (labels : list cell) (names : list string) (df : DataFrame string)
  : result (DataFrame string) :=
  rs <- loc_rows labels (df_rows df) ;;
  ps <- positions names (df_columns df) ;;
  Ok (mkDF (df_index_name df) names
           (map (fun r : row => (fst r, map (fun i => nth i (snd r) NaN) ps)) rs)).

(** *** Cell comparison *)

(** Two cells differ unless they are equal or both missing. *)
Definition differs (a b : cell) : bool := negb (cell_eqb a b).

Fixpoint map2 {A B C} (f : A -> B -> C) (l : list A) (l' : list B) : list C :=
  match l, l' with
  | a :: t, b :: t' => f a b :: map2 f t t'
  | _, _ => []
  end.

Definition row_mask (a b : row) : list bool := map2 differs (snd a) (snd b).

Definition any (m : list bool) : bool := existsb (fun b => b) m.

Definition list_eqb {A} (eqb : A -> A -> bool) : list A -> list A -> bool :=
  fix go l l' :=
    match l, l' with
    | [], [] => true
    | a :: t, b :: t' => eqb a b && go t t'
    | _, _ => false
    end.

Definition where_ (keep : bool) (v : cell) : cell := if keep then v else NaN.

(** One row of the comparison: for each column kept by [cmask], the value
    of [a] and the value of [b], each blanked to [NaN] where the two do
    not differ. *)
Definition compare_row (cmask : list bool) (a b : row) : row :=
  (fst a,
   flat_map (fun t : bool * (cell * cell) =>
               let d := differs (fst (snd t)) (snd (snd t)) in
               [where_ d (fst (snd t)); where_ d (snd (snd t))])
            (filter fst (combine cmask (combine (snd a) (snd b))))).

(** [a.compare(b, result_names=(na, nb))]: [ValueError] unless both frames
    carry the same column labels and the same index labels in the same
    order; otherwise the rows and the columns with at least one differing
    cell, each kept column split in two. *)
Definition compare (na nb : string) (a b : DataFrame string)
  : result (DataFrame (string * string)) :=
  if list_eqb String.eqb (df_columns a) (df_columns b)
     && list_eqb cell_eqb (df_index a) (df_index b)
  then
    let masks := map2 row_mask (df_rows a) (df_rows b) in
    let cmask := map (fun j => existsb (fun m => nth j m false) masks)
                     (seq 0 (List.length (df_columns a))) in
    Ok (mkDF (df_index_name a)
             (flat_map (fun c => [(c, na); (c, nb)]) (select cmask (df_columns a)))
             (map (fun p : row * row => compare_row cmask (fst p) (snd p))
                  (filter (fun p : row * row => any (row_mask (fst p) (snd p)))
                          (combine (df_rows a) (df_rows b)))))
  else
    Raise (ValueError
      "Can only compare identically-labeled (both index and columns) DataFrame objects").

(** [df.fillna(v)]. *)
Definition fillna {L} (v : cell) (df : DataFrame L) : DataFrame L :=
  mkDF (df_index_name df) (df_columns df)
       (map (fun r : row =>
               (fst r, map (fun x => match x with NaN => v | _ => x end) (snd r)))
            (df_rows df)).

(** [pd.concat([a, b], axis=1)] as the script uses it, [a] being a
    selection of rows by the index labels of [b]: the frames are put side
    by side when their indexes are identical; when they are not, [a]
    repeats a label and pandas refuses to reindex it. *)
Definition concat_columns {L} (a b : DataFrame L) : result (DataFrame L) :=
  if list_eqb cell_eqb (df_index a) (df_index b)
  then Ok (mkDF (df_index_name a) (df_columns a ++ df_columns b)
                (map2 (fun ra rb : row => (fst ra, snd ra ++ snd rb))
                      (df_rows a) (df_rows b)))
  else Raise InvalidIndexError.

(** *** Elementwise inequality *)

(** [a != b] on two cells: a missing value differs from everything,
    itself included. *)
Definition ne (a b : cell) : bool :=
  match a, b with
  | NaN, _ | _, NaN => true
  | _, _ => negb (cell_eqb a b)
  end.

(** [a[a != b]]: [ValueError] unless the two frames carry the same labels;
    otherwise [a] with every cell that equals the cell of [b] blanked. *)
Definition where_ne (a b : DataFrame string) : result (DataFrame string) :=
  if list_eqb String.eqb (df_columns a) (df_columns b)
     && list_eqb cell_eqb (df_index a) (df_index b)
  then
    Ok (mkDF (df_index_name a) (df_columns a)
             (map2 (fun ra rb : row =>
                      (fst ra, map2 (fun x y => where_ (ne x y) x) (snd ra) (snd rb)))
                   (df_rows a) (df_rows b)))
  else
    Raise (ValueError
      "Can only compare identically-labeled (both index and columns) DataFrame objects").

End Pandas.

(** ** Worksheets of the report *)

Module Xlsxwriter.

(** A table handed to [to_excel]: the cell comparison, with its two-level
    columns, or a selection of rows of a sheet. *)
Inductive table : Type :=
| Split (df : DataFrame (string * string))
| Whole (df : DataFrame string).

Definition table_empty (t : table) : bool :=
  match t with
  | Split df => df_empty df
  | Whole df => df_empty df
  end.

(** What was written into a worksheet: a text at a cell, or a table
    from a row downwards. *)
Inductive write : Type :=
| write_string (row col : nat) (text : string)
| to_excel (startrow : nat) (t : table).

(** A worksheet: its name, the highest row written so far ([None] on a
    fresh worksheet) and what was written, in order. *)
Record worksheet : Type := mkSheet {
  ws_name : string;
  dim_rowmax : option nat;
  ws_writes : list write
}.

(** The worksheet keeps [dim_rowmax] up to date on every cell written. *)
Definition check_dimensions (row : nat) (d : option nat) : option nat :=
  match d with
  | None => Some row
  | Some m => Some (Nat.max m row)
  end.

End Xlsxwriter.

(** ** The class [ExcelCompare] *)

Module ExcelCompare.
Import Pandas.

(** What [pd.read_excel(path, sheet_name=None)] returns: the sheets of a
    workbook by name, in authored order (a Python dict: names distinct). *)
Definition workbook : Type := list (string * DataFrame string).

(** The attributes of [self].  [old_stem] and [new_stem] stand for
    [self.old_file_path.stem] and [self.new_file_path.stem]. *)
Record t : Type := mk {
  index_name : string;
  other_ref_cols : option (list string);
  ignored_cols : list string;
  old_stem : string;
  new_stem : string;
  old_excel : workbook;
  new_excel : workbook
}.

(** The dict a sheet comparison returns, by its three keys. *)
Record sheet_diff : Type := mkDiff {
  changed : DataFrame (string * string);
  added : DataFrame string;
  deleted : DataFrame string
}.

Definition set_ignored_cols (cols : list string) (self : t) : t :=
  mk (index_name self) (other_ref_cols self) cols (old_stem self)
     (new_stem self) (old_excel self) (new_excel self).

(** [delete_ignored_and_conflicting_cols]: both frames are changed in
    place; the pair returned is [df1], [df2] after the call. *)
Definition delete_ignored_and_conflicting_cols (self : t)
    (df1 df2 : DataFrame string) : DataFrame string * DataFrame string :=
  let cols_to_delete :=
    union (symmetric_difference (df_columns df1) (df_columns df2))
          (ignored_cols self) in
  let df2' := drop (intersection (df_columns df2) cols_to_delete) df2 in
  let df1' := drop (intersection (df_columns df1) cols_to_delete) df1 in
  (df1', df2').

(** The [try] block of [get_sheet_diff]: a [ValueError] of the comparison
    is raised again as "Possibly duplicate index". *)
Definition cell_cmp (self : t) (df_old_both df_new_both : DataFrame string)
  : result (DataFrame (string * string)) :=
  match compare (old_stem self) (new_stem self) df_old_both df_new_both with
  | Ok d => Ok (fillna (Str "") d)
  | Raise (ValueError _ as e) | Raise (ValueErrorFrom _ _ as e) =>
      Raise (ValueErrorFrom "Possibly duplicate index" e)
  | Raise e => Raise e
  end.

(** The reference columns put to the left of the comparison. *)
Definition add_ref_cols (self : t) (df_old_both : DataFrame string)
    (df_cell_cmp : DataFrame (string * string))
  : result (DataFrame (string * string)) :=
  match other_ref_cols self with
  | Some (c :: cs) =>
      if negb (df_empty df_cell_cmp) then
        df_ref <- loc2 (df_index df_cell_cmp) (c :: cs) df_old_both ;;
        let multi_idx_tup := map (fun ref_col => (ref_col, "-")) (c :: cs) in
        concat_columns
          (mkDF (df_index_name df_ref) multi_idx_tup (df_rows df_ref))
          df_cell_cmp
      else Ok df_cell_cmp
  | _ => Ok df_cell_cmp
  end.

(** [get_sheet_diff] after the columns were reconciled. *)
Definition diff_reconciled (self : t) (df_old df_new : DataFrame string)
  : result sheet_diff :=
  df_merged <- merge df_old df_new (index_name self) ;;
  let df_idx_in_both := index_where both df_merged in
  df_old_both <- loc df_idx_in_both df_old ;;
  df_new_both <- loc df_idx_in_both df_new ;;
  df_cell_cmp <- cell_cmp self df_old_both df_new_both ;;
  df_cell_cmp <- add_ref_cols self df_old_both df_cell_cmp ;;
  let df_idx_in_old_only := index_where left_only df_merged in
  let df_idx_in_new_only := index_where right_only df_merged in
  added_rows <- loc df_idx_in_new_only df_new ;;
  deleted_rows <- loc df_idx_in_old_only df_old ;;
  Ok (mkDiff df_cell_cmp added_rows deleted_rows).

(** [get_sheet_diff]: the two frames as the call leaves them, and the
    dict returned or the exception raised. *)
Definition get_sheet_diff (self : t) (df_old df_new : DataFrame string)
  : (DataFrame string * DataFrame string) * result sheet_diff :=
  let '(df_old', df_new') := delete_ignored_and_conflicting_cols self df_old df_new in
  ((df_old', df_new'), diff_reconciled self df_old' df_new').

(** *** The workbooks of [self] as state *)

Fixpoint lookup (name : string) (wb : workbook) : option (DataFrame string) :=
  match wb with
  | [] => None
  | (n, df) :: rest => if String.eqb n name then Some df else lookup name rest
  end.

(** The frame held under [name] after it was changed in place. *)
Definition store (name : string) (df : DataFrame string) (wb : workbook) : workbook :=
  map (fun p : string * DataFrame string =>
         if String.eqb (fst p) name then (fst p, df) else p) wb.

Definition with_old (wb : workbook) (self : t) : t :=
  mk (index_name self) (other_ref_cols self) (ignored_cols self)
     (old_stem self) (new_stem self) wb (new_excel self).

Definition with_new (wb : workbook) (self : t) : t :=
  mk (index_name self) (other_ref_cols self) (ignored_cols self)
     (old_stem self) (new_stem self) (old_excel self) wb.

(** A method of the class: the object after the call, and what the call
    returned or raised. *)
Definition method (A : Type) : Type := t -> t * result A.

Definition ret {A} (a : A) : method A := fun self => (self, Ok a).

Definition bind {A B} (m : method A) (f : A -> method B) : method B :=
  fun self =>
    match m self with
    | (self', Ok a) => f a self'
    | (self', Raise e) => (self', Raise e)
    end.

Notation "x <~ m ;; k" := (bind m (fun x => k))
  (at level 61, m at next level, right associativity).

(** [self.old_excel[name]] and [self.new_excel[name]]. *)
Definition old_sheet (name : string) : method (DataFrame string) :=
  fun self =>
    match lookup name (old_excel self) with
    | Some df => (self, Ok df)
    | None => (self, Raise (KeyError (Str name)))
    end.

Definition new_sheet (name : string) : method (DataFrame string) :=
  fun self =>
    match lookup name (new_excel self) with
    | Some df => (self, Ok df)
    | None => (self, Raise (KeyError (Str name)))
    end.

Definition put_old (name : string) (df : DataFrame string) : method unit :=
  fun self => (with_old (store name df (old_excel self)) self, Ok tt).

Definition put_new (name : string) (df : DataFrame string) : method unit :=
  fun self => (with_new (store name df (new_excel self)) self, Ok tt).

Definition lift {A} (r : result A) : method A := fun self => (self, r).

(** The key setup of one sheet: the positional index is named, or the key
    column is moved into the index, first in the old frame, then in the
    new one. *)
Definition set_key (sheet_name : string) : method unit :=
  fun self =>
    (if String.eqb (index_name self) "_index_" then
       o <~ old_sheet sheet_name ;;
       _ <~ put_old sheet_name (set_names (index_name self) o) ;;
       n <~ new_sheet sheet_name ;;
       put_new sheet_name (set_names (index_name self) n)
     else
       o <~ old_sheet sheet_name ;;
       o' <~ lift (set_index (index_name self) o) ;;
       _ <~ put_old sheet_name o' ;;
       n <~ new_sheet sheet_name ;;
       n' <~ lift (set_index (index_name self) n) ;;
       put_new sheet_name n') self.

(** One turn of the loop of [get_excel_diff]. *)
Definition compare_sheet (sheet_name : string) : method sheet_diff :=
  _ <~ set_key sheet_name ;;
  o <~ old_sheet sheet_name ;;
  n <~ new_sheet sheet_name ;;
  fun self =>
    let '((o', n'), r) := get_sheet_diff self o n in
    (_ <~ put_old sheet_name o' ;;
     _ <~ put_new sheet_name n' ;;
     lift r) self.

Fixpoint compare_sheets (names : list string)
    (excel_diff : list (string * sheet_diff))
  : method (list (string * sheet_diff)) :=
  match names with
  | [] => ret excel_diff
  | sheet_name :: rest =>
      d <~ compare_sheet sheet_name ;;
      compare_sheets rest (excel_diff ++ [(sheet_name, d)])
  end.

(** [get_excel_diff]: the sheets of the old workbook in order, each
    compared with the sheet of the new workbook found under its name. *)
Definition get_excel_diff : method (list (string * sheet_diff)) :=
  fun self => compare_sheets (map fst (old_excel self)) [] self.

(** *** [temp_compare] *)

(** [temp_compare] on the two workbooks its [read_excel] calls return:
    the frames it prints, in order, and how the call ends.  The sheets are
    taken pairwise in the order of the two workbooks. *)
Fixpoint temp_compare_pairs
    (pairs : list ((string * DataFrame string) * (string * DataFrame string)))
  : list (DataFrame string) * result unit :=
  match pairs with
  | [] => ([], Ok tt)
  | (sheet_old, sheet_new) :: rest =>
      match where_ne (snd sheet_old) (snd sheet_new) with
      | Ok difference =>
          let '(printed, r) := temp_compare_pairs rest in
          (difference :: printed, r)
      | Raise e => ([], Raise e)
      end
  end.

Definition temp_compare (old_file new_file : workbook)
  : list (DataFrame string) * result unit :=
  temp_compare_pairs (combine old_file new_file).

(** *** Writing the report *)

Import Xlsxwriter.

Definition is_lower (c : Ascii.ascii) : bool :=
  ((97 <=? Ascii.nat_of_ascii c) && (Ascii.nat_of_ascii c <=? 122))%nat.

Definition is_upper (c : Ascii.ascii) : bool :=
  ((65 <=? Ascii.nat_of_ascii c) && (Ascii.nat_of_ascii c <=? 90))%nat.

(** [str.title()] on ASCII text: a letter that follows a letter is made
    lower case, any other letter upper case. *)
Fixpoint title_from (previous_is_cased : bool) (s : string) : string :=
  match s with
  | EmptyString => EmptyString
  | String c rest =>
      if is_lower c then
        String (if previous_is_cased then c
                else Ascii.ascii_of_nat (Ascii.nat_of_ascii c - 32))
               (title_from true rest)
      else if is_upper c then
        String (if previous_is_cased
                then Ascii.ascii_of_nat (Ascii.nat_of_ascii c + 32) else c)
               (title_from true rest)
      else String c (title_from false rest)
  end.

Definition title (s : string) : string := title_from false s.

(** [sheet_dict.items()]. *)
Definition items (sheet_dict : sheet_diff) : list (string * table) :=
  [("changed", Split (changed sheet_dict));
   ("added", Whole (added sheet_dict));
   ("deleted", Whole (deleted sheet_dict))].

Section Writer.

(** The number of worksheet rows [DataFrame.to_excel] fills for a table:
    its header rows and its data rows. *)
Variable rows_written : table -> nat.

(** [df_to_excel]: the title at the current [dim_rowmax], the table from
    the row below, and [dim_rowmax] moved two rows on. *)
Definition df_to_excel (df : table) (df_title : string) (ws : worksheet)
  : worksheet :=
  let row := match dim_rowmax ws with Some m => m | None => 0 end in
  let after_title := check_dimensions row (Some row) in
  let after_table :=
    match rows_written df with
    | O => after_title
    | S h => check_dimensions (row + 1 + h) after_title
    end in
  mkSheet (ws_name ws)
          (option_map (fun m => m + 2) after_table)
          (ws_writes ws ++ [write_string row 0 df_title; to_excel (row + 1) df]).

(** [sheet_diff_to_excel]: a fresh worksheet is added to the book and
    receives the tables that are not empty, each under its title. *)
Definition sheet_diff_to_excel (sheet_dict : sheet_diff) (sheet_name : string)
    (book : list worksheet) : list worksheet :=
  book
  ++ [fold_left
        (fun ws (entry : string * table) =>
           if negb (table_empty (snd entry))
           then df_to_excel (snd entry) (title (fst entry)) ws
           else ws)
        (items sheet_dict)
        (mkSheet sheet_name None [])].

(** [write_to_excel]: the worksheets of the book written, or the
    exception of [get_excel_diff], raised before anything is written. *)
Definition write_to_excel : method (list worksheet) :=
  bind get_excel_diff (fun excel_diff =>
    ret (fold_left
           (fun book (entry : string * sheet_diff) =>
              if negb (forallb (fun e : string * table => table_empty (snd e))
                               (items (snd entry)))
              then sheet_diff_to_excel (snd entry) (fst entry) book
              else book)
           excel_diff [])).

End Writer.

End ExcelCompare.

(** ** Notions used to state the properties *)

Module Notions.
Import Pandas ExcelCompare.

(** The keys of an outer join: each key of either side once, sorted. *)
Definition join_keys (lk rk : list cell) : list cell :=
  sort_keys (nodup cell_eq_dec (lk ++ rk)).

(** The provenance of a key in an outer join, and the number of joined
    rows that carry it. *)
Definition tag_of (lk rk : list cell) (k : cell) : indicator :=
  match count k lk, count k rk with
  | O, _ => right_only
  | _, O => left_only
  | _, _ => both
  end.

Definition mult (lk rk : list cell) (k : cell) : nat :=
  match count k lk, count k rk with
  | O, n => n
  | m, O => m
  | m, n => m * n
  end.

(** The rows of [df] that [loc] returns for [labels] when it does not
    raise. *)
Definition rows_of {L} (labels : list cell) (df : DataFrame L) : DataFrame L :=
  mkDF (df_index_name df) (df_columns df)
       (flat_map (fun l => rows_at l (df_rows df)) labels).

(** The three index selections of the rows aligned on their index. *)
Definition in_both (df_old df_new : DataFrame string) : list cell :=
  index_where both (outer_join (df_index df_old) (df_index df_new)).

Definition in_old_only (df_old df_new : DataFrame string) : list cell :=
  index_where left_only (outer_join (df_index df_old) (df_index df_new)).

Definition in_new_only (df_old df_new : DataFrame string) : list cell :=
  index_where right_only (outer_join (df_index df_old) (df_index df_new)).

(** The exception [get_sheet_diff] raises from a failed comparison. *)
Definition duplicate_index_error : exn :=
  ValueErrorFrom "Possibly duplicate index"
    (ValueError
       "Can only compare identically-labeled (both index and columns) DataFrame objects").

(** C2 as the specification words it: a key that is repeated in the old
    frame and present in the new one makes the comparison fail. *)
Definition fails_on_repeated_shared_key
    (self : t) (df_old df_new : DataFrame string) : Prop :=
  forall k, count k (df_index df_old) > 1 -> In k (df_index df_new) ->
            exists e, snd (get_sheet_diff self df_old df_new) = Raise e.

(** The value a row has in the column labelled [c]. *)
Definition cell_at (cols : list string) (c : string) (r : row) : cell :=
  match index_of c cols with
  | Some i => nth i (snd r) NaN
  | None => NaN
  end.

(** The same session with no reference columns configured. *)
Definition without_refs (self : t) : t :=
  mk (index_name self) None (ignored_cols self) (old_stem self)
     (new_stem self) (old_excel self) (new_excel self).

(** C4 as the specification words its last part: a reference column gets
    no old/new pair of columns in [changed]. *)
Definition reference_columns_never_diffed
    (self : t) (df_old df_new : DataFrame string) : Prop :=
  forall refs r, other_ref_cols self = Some refs ->
                 snd (get_sheet_diff self df_old df_new) = Ok r ->
                 forall c, In c refs ->
                           ~ In (c, old_stem self) (df_columns (changed r))
                           /\ ~ In (c, new_stem self) (df_columns (changed r)).

(** The key setup of one frame: the positional index is named, or the key
    column is moved into the index. *)
Definition key_frame (self : t) (df : DataFrame string) : result (DataFrame string) :=
  if String.eqb (index_name self) "_index_"
  then Ok (set_names (index_name self) df)
  else set_index (index_name self) df.

(** What a session is configured with, apart from its workbooks. *)
Definition config (self : t)
  : string * option (list string) * list string * string * string :=
  (index_name self, other_ref_cols self, ignored_cols self,
   old_stem self, new_stem self).

(** One turn of the loop, with the accesses to the two dicts resolved. *)
Definition sheet_step (s : string) (self : t) : t * result sheet_diff :=
  match lookup s (old_excel self) with
  | None => (self, Raise (KeyError (Str s)))
  | Some o =>
      match key_frame self o with
      | Raise e => (self, Raise e)
      | Ok o1 =>
          let self1 := with_old (store s o1 (old_excel self)) self in
          match lookup s (new_excel self) with
          | None => (self1, Raise (KeyError (Str s)))
          | Some n =>
              match key_frame self n with
              | Raise e => (self1, Raise e)
              | Ok n1 =>
                  let g := get_sheet_diff self o1 n1 in
                  (with_new (store s (snd (fst g)) (new_excel self))
                     (with_old (store s (fst (fst g)) (old_excel self)) self),
                   snd g)
              end
          end
      end
  end.

(** C1 as the specification words it: the Nth sheet of the old workbook
    against the Nth sheet of the new one, whatever their names, up to the
    length of the shorter workbook. *)
Definition positional_diff (self : t) : result (list (string * sheet_diff)) :=
  fold_right
    (fun (p : (string * DataFrame string) * (string * DataFrame string)) acc =>
       o1 <- key_frame self (snd (fst p)) ;;
       n1 <- key_frame self (snd (snd p)) ;;
       d <- snd (get_sheet_diff self o1 n1) ;;
       rest <- acc ;;
       Ok ((fst (fst p), d) :: rest))
    (Ok [])
    (combine (old_excel self) (new_excel self)).

(** The sheet [s] was compared with the sheet of the same name of the new
    workbook, giving [d], and [self'] holds the two frames as the
    comparison left them. *)
Definition compared_by_name (self : t) (s : string) (d : sheet_diff) (self' : t)
  : Prop :=
  exists o n o1 n1,
    lookup s (old_excel self) = Some o
    /\ lookup s (new_excel self) = Some n
    /\ key_frame self o = Ok o1
    /\ key_frame self n = Ok n1
    /\ snd (get_sheet_diff self o1 n1) = Ok d
    /\ lookup s (old_excel self')
       = Some (fst (delete_ignored_and_conflicting_cols self o1 n1))
    /\ lookup s (new_excel self')
       = Some (snd (delete_ignored_and_conflicting_cols self o1 n1)).


Definition pairs_sheets_by_position (self : t) : Prop :=
  snd (get_excel_diff self) = positional_diff self.

(** Two workbooks with the same sheet names in the same order and, sheet
    by sheet, the same number of rows. *)
Definition same_shape (wb wb' : workbook) : Prop :=
  Forall2 (fun p q : string * DataFrame string =>
             fst p = fst q
             /\ List.length (df_rows (snd p)) = List.length (df_rows (snd q)))
          wb wb'.

(** A sheet comparison with at least one table that is not empty. *)
Definition has_difference (d : sheet_diff) : bool :=
  negb (df_empty (changed d) && df_empty (added d) && df_empty (deleted d)).

(** The tables of a sheet comparison under the titles of the report, and
    those of them that are not empty. *)
Definition titled_tables (d : sheet_diff) : list (string * Xlsxwriter.table) :=
  [("Changed", Xlsxwriter.Split (changed d));
   ("Added", Xlsxwriter.Whole (added d));
   ("Deleted", Xlsxwriter.Whole (deleted d))].

Definition sections (d : sheet_diff) : list (string * Xlsxwriter.table) :=
  filter (fun e => negb (Xlsxwriter.table_empty (snd e))) (titled_tables d).

(** The row the next title goes to: [dim_rowmax or 0]. *)
Definition next_row (ws : Xlsxwriter.worksheet) : nat :=
  match Xlsxwriter.dim_rowmax ws with Some m => m | None => 0 end.

(** A sheet that can be keyed and is the same in both workbooks. *)
Definition same_sheet (self : t) (s : string) : Prop :=
  exists df df1,
    lookup s (old_excel self) = Some df
    /\ lookup s (new_excel self) = Some df
    /\ key_frame self df = Ok df1
    /\ ~ In (index_name self) (df_columns df1).

(** What a worksheet of the report shows: its name and what was written
    into it. *)
Definition written (ws : Xlsxwriter.worksheet)
  : string * list Xlsxwriter.write :=
  (Xlsxwriter.ws_name ws, Xlsxwriter.ws_writes ws).

(** Titled tables one under the other from [row] on: the title, the
    table from the next row, one row left blank after the table. *)
Fixpoint layout (rows_written : Xlsxwriter.table -> nat) (row : nat)
    (blocks : list (string * Xlsxwriter.table)) : list Xlsxwriter.write :=
  match blocks with
  | [] => []
  | (df_title, df) :: rest =>
      Xlsxwriter.write_string row 0 df_title
      :: Xlsxwriter.to_excel (row + 1) df
      :: layout rows_written (row + 1 + rows_written df + 1) rest
  end.

End Notions.

(** ** Sample sheets *)

Module Examples.
Import Pandas ExcelCompare.

(** A frame keyed by [id] with the single column [val]. *)
Definition keyed (rows : list (Z * string)) : DataFrame string :=
  mkDF (Some "id") ["val"]
       (map (fun p : Z * string => (Num (fst p), [Str (snd p)])) rows).

(** A sheet as read from a file: positional index, columns [id], [val]. *)
Definition sheet (rows : list (Z * string)) : DataFrame string :=
  mkDF None ["id"; "val"]
       (combine (map (fun i => Num (Z.of_nat i)) (seq 0 (List.length rows)))
                (map (fun p : Z * string => [Num (fst p); Str (snd p)]) rows)).

(** A comparison keyed by [id], of files [old.xlsx] and [new.xlsx]. *)
Definition session (refs : option (list string)) (old new : workbook) : t :=
  mk "id" refs [] "old" "new" old new.

Definition by_id : t := session None [] [].

(** Two workbooks with the same sheets in a different order, and a new
    workbook that lacks the second sheet of the old one. *)
Definition book_A_B : workbook :=
  [("A", sheet [(1, "a")]%Z); ("B", sheet [(5, "x")]%Z)].
Definition book_B_A : workbook :=
  [("B", sheet [(5, "y")]%Z); ("A", sheet [(1, "a")]%Z)].
Definition book_A : workbook := [("A", sheet [(1, "a")]%Z)].

(** What comparing [book_A_B] with [book_B_A] returns: sheet [A] is
    unchanged, the value of key 5 in sheet [B] changes. *)
Definition diffs_A_B : list (string * sheet_diff) :=
  [("A", mkDiff (mkDF (Some "id") [] [])
                (mkDF (Some "id") ["val"] []) (mkDF (Some "id") ["val"] []));
   ("B", mkDiff (mkDF (Some "id") [("val", "old"); ("val", "new")]
                      [(Num 5, [Str "x"; Str "y"])]%Z)
                (mkDF (Some "id") ["val"] []) (mkDF (Some "id") ["val"] []))].

(** The first scenario of the specification: key 2 leaves, key 3 comes. *)
Definition old_1_2 : DataFrame string := keyed [(1, "a"); (2, "b")]%Z.
Definition new_1_3 : DataFrame string := keyed [(1, "a"); (3, "c")]%Z.
Definition diff_1_2_3 : sheet_diff :=
  mkDiff (mkDF (Some "id") [] []) (keyed [(3, "c")]%Z) (keyed [(2, "b")]%Z).

(** The second scenario of the specification: the value of key 1 changes. *)
Definition old_a : DataFrame string := keyed [(1, "a")]%Z.
Definition new_b : DataFrame string := keyed [(1, "b")]%Z.
Definition diff_a_b : sheet_diff :=
  mkDiff (mkDF (Some "id") [("val", "old"); ("val", "new")]
               [(Num 1, [Str "a"; Str "b"])]%Z)
         (keyed []) (keyed []).

(** The same, with [val] also configured as reference column. *)
Definition by_id_ref_val : t := session (Some ["val"]) [] [].
Definition diff_a_b_ref : sheet_diff :=
  mkDiff (mkDF (Some "id") [("val", "-"); ("val", "old"); ("val", "new")]
               [(Num 1, [Str "a"; Str "a"; Str "b"])]%Z)
         (keyed []) (keyed []).

(** Key 1 twice in the old frame; once, twice or not at all in the new. *)
Definition old_twice : DataFrame string := keyed [(1, "a"); (1, "b")]%Z.
Definition new_once : DataFrame string := keyed [(1, "b")]%Z.
Definition new_twice : DataFrame string := keyed [(1, "b"); (1, "b")]%Z.


(** A frame filling one header row and one row per row of the frame. *)
Definition header_and_rows (t : Xlsxwriter.table) : nat :=
  match t with
  | Xlsxwriter.Split df => S (List.length (df_rows df))
  | Xlsxwriter.Whole df => S (List.length (df_rows df))
  end.

(** Sheets compared by row position, the default. *)
Definition by_position (old new : workbook) : t :=
  mk "_index_" None [] "old" "new" old new.

(** What comparing [book_A_B] with [book_B_A] by row position returns. *)
Definition diffs_by_position : list (string * sheet_diff) :=
  [("A", mkDiff (mkDF (Some "_index_") [] [])
                (mkDF (Some "_index_") ["id"; "val"] [])
                (mkDF (Some "_index_") ["id"; "val"] []));
   ("B", mkDiff (mkDF (Some "_index_") [("val", "old"); ("val", "new")]
                      [(Num 0, [Str "x"; Str "y"])]%Z)
                (mkDF (Some "_index_") ["id"; "val"] [])
                (mkDF (Some "_index_") ["id"; "val"] []))].

(** A sheet without the key column [id]. *)
Definition sheet_no_id : DataFrame string :=
  mkDF None ["val"] [(Num 0, [Str "a"])]%Z.

(** Frames keyed by [id] with the columns [val] and [notes]; the two
    differ in [notes] only. *)
Definition noted (rows : list (Z * string * string)) : DataFrame string :=
  mkDF (Some "id") ["val"; "notes"]
       (map (fun p : Z * string * string =>
               (Num (fst (fst p)), [Str (snd (fst p)); Str (snd p)])) rows).
Definition old_notes : DataFrame string := noted [(1, "a", "draft")]%Z.
Definition new_notes : DataFrame string := noted [(1, "a", "final")]%Z.
Definition no_diff : sheet_diff :=
  mkDiff (mkDF (Some "id") [] []) (keyed []) (keyed []).


(** A frame with the extra column [label], and [label] as reference
    column. *)
Definition old_labelled : DataFrame string :=
  mkDF (Some "id") ["val"; "label"] [(Num 1, [Str "a"; Str "first"])]%Z.
Definition by_id_ref_label : t := session (Some ["label"]) [] [].

End Examples.

(** * Properties *)

Import Pandas ExcelCompare Notions Examples.

(** ** Labels and masks *)

Section Lists.

Lemma cell_eqb_eq (a b : cell) : cell_eqb a b = true <-> a = b.
Proof.
  unfold cell_eqb. destruct (cell_eq_dec a b); split; congruence.
Qed.

Lemma cell_eqb_refl (a : cell) : cell_eqb a a = true.
Proof. now apply cell_eqb_eq. Qed.

Lemma mem_In (c : string) (l : list string) : mem c l = true <-> In c l.
Proof.
  unfold mem. rewrite existsb_exists. split.
  - intros [x [Hx Heq]]. apply String.eqb_eq in Heq. now subst.
  - intros H. exists c. split; [assumption | apply String.eqb_refl].
Qed.

Lemma mem_false (c : string) (l : list string) : mem c l = false <-> ~ In c l.
Proof.
  rewrite <- mem_In. destruct (mem c l); split; congruence.
Qed.

Lemma select_map {A} (f : A -> bool) (l : list A) :
  select (map f l) l = filter f l.
Proof.
  unfold select. induction l as [| a l IH]; simpl; [reflexivity |].
  destruct (f a); simpl; now rewrite IH.
Qed.

Lemma list_eqb_eq {A} (eqb : A -> A -> bool)
    (Heq : forall a b, eqb a b = true <-> a = b) (l l' : list A) :
  list_eqb eqb l l' = true <-> l = l'.
Proof.
  revert l'. induction l as [| a l IH]; intros [| b l']; simpl;
    try (split; congruence).
  rewrite andb_true_iff, Heq, IH. split.
  - intros [-> ->]. reflexivity.
  - intros H. injection H as -> ->. now split.
Qed.

Lemma index_of_None (c : string) (cols : list string) :
  index_of c cols = None <-> ~ In c cols.
Proof.
  induction cols as [| d ds IH]; simpl.
  - split; [tauto | reflexivity].
  - destruct (String.eqb c d) eqn:E.
    + apply String.eqb_eq in E. subst. split; [discriminate | tauto].
    + apply String.eqb_neq in E.
      destruct (index_of c ds); simpl.
      * split; [discriminate |]. intros H. exfalso. apply H. right.
        apply Decidable.not_not; [| intros Hn; now apply IH in Hn].
        destruct (in_dec string_dec c ds); [left | right]; assumption.
      * split; [| reflexivity]. intros _ [H | H]; [congruence |].
        now apply IH in H.
Qed.

Lemma index_of_Some (c : string) (cols : list string) (i : nat) :
  index_of c cols = Some i -> nth_error cols i = Some c.
Proof.
  revert i. induction cols as [| d ds IH]; simpl; intros i H; [discriminate |].
  destruct (String.eqb c d) eqn:E.
  - apply String.eqb_eq in E. injection H as <-. now subst.
  - destruct (index_of c ds) as [j |]; simpl in H; [| discriminate].
    injection H as <-. simpl. now apply IH.
Qed.

End Lists.

(** ** Column reconciliation *)

Lemma drop_columns (labels : list string) (df : DataFrame string) :
  df_columns (drop labels df)
  = filter (fun c => negb (mem c labels)) (df_columns df).
Proof. unfold drop. simpl. apply select_map. Qed.

Lemma mem_intersection (c : string) (a b : list string) :
  In c a -> mem c (intersection a b) = mem c b.
Proof.
  intros Ha. unfold intersection.
  destruct (mem c b) eqn:E.
  - apply mem_In. apply filter_In. now split.
  - apply mem_false. intros H. apply filter_In in H. destruct H; congruence.
Qed.

Lemma reconciled_columns (self : t) (df1 df2 : DataFrame string) :
  let cols_to_delete :=
    union (symmetric_difference (df_columns df1) (df_columns df2))
          (ignored_cols self) in
  df_columns (fst (delete_ignored_and_conflicting_cols self df1 df2))
  = filter (fun c => negb (mem c cols_to_delete)) (df_columns df1)
  /\ df_columns (snd (delete_ignored_and_conflicting_cols self df1 df2))
     = filter (fun c => negb (mem c cols_to_delete)) (df_columns df2).
Proof.
  unfold delete_ignored_and_conflicting_cols. cbv zeta. cbn [fst snd].
  rewrite !drop_columns. split; apply filter_ext_in; intros c Hc;
    now rewrite mem_intersection.
Qed.

Lemma In_union (c : string) (a b : list string) :
  In c (union a b) <-> In c a \/ In c b.
Proof.
  unfold union. rewrite in_app_iff, filter_In, negb_true_iff, mem_false.
  destruct (in_dec string_dec c a); tauto.
Qed.

Lemma In_symmetric_difference (c : string) (a b : list string) :
  In c (symmetric_difference a b)
  <-> (In c a /\ ~ In c b) \/ (In c b /\ ~ In c a).
Proof.
  unfold symmetric_difference.
  rewrite in_app_iff, !filter_In, !negb_true_iff, !mem_false. tauto.
Qed.

(** C5.  Column reconciliation removes from both frames exactly the
    columns that are in (only in old, or only in new) or ignored: a column
    stays in a frame if and only if it was in that frame and is not in
    that set; afterwards the two frames have the same set of columns. *)
Theorem reconciliation_removes_exactly_the_drop_set
    (self : t) (df1 df2 : DataFrame string) :
  let cols_to_delete :=
    union (symmetric_difference (df_columns df1) (df_columns df2))
          (ignored_cols self) in
  let df1' := fst (delete_ignored_and_conflicting_cols self df1 df2) in
  let df2' := snd (delete_ignored_and_conflicting_cols self df1 df2) in
  (forall c, In c (df_columns df1')
             <-> In c (df_columns df1) /\ ~ In c cols_to_delete)
  /\ (forall c, In c (df_columns df2')
                <-> In c (df_columns df2) /\ ~ In c cols_to_delete)
  /\ (forall c, In c cols_to_delete
                <-> (In c (df_columns df1) /\ ~ In c (df_columns df2))
                    \/ (In c (df_columns df2) /\ ~ In c (df_columns df1))
                    \/ In c (ignored_cols self))
  /\ (forall c, In c (df_columns df1') <-> In c (df_columns df2')).
Proof.
  intros D df1' df2'.
  destruct (reconciled_columns self df1 df2) as [H1 H2].
  fold D in H1, H2. fold df1' in H1. fold df2' in H2.
  assert (HD : forall c, In c D
                <-> (In c (df_columns df1) /\ ~ In c (df_columns df2))
                    \/ (In c (df_columns df2) /\ ~ In c (df_columns df1))
                    \/ In c (ignored_cols self)).
  { intros c. unfold D. rewrite In_union, In_symmetric_difference. tauto. }
  assert (K1 : forall c, In c (df_columns df1')
                         <-> In c (df_columns df1) /\ ~ In c D).
  { intros c. rewrite H1, filter_In, negb_true_iff, mem_false. tauto. }
  assert (K2 : forall c, In c (df_columns df2')
                         <-> In c (df_columns df2) /\ ~ In c D).
  { intros c. rewrite H2, filter_In, negb_true_iff, mem_false. tauto. }
  refine (conj K1 (conj K2 (conj HD _))).
  intros c. split; intros H.
  - apply K1 in H. destruct H as [Hc Hn]. apply K2. split; [| exact Hn].
    destruct (in_dec string_dec c (df_columns df2)) as [|Hn2]; [assumption |].
    exfalso. apply Hn. apply HD. left. now split.
  - apply K2 in H. destruct H as [Hc Hn]. apply K1. split; [| exact Hn].
    destruct (in_dec string_dec c (df_columns df1)) as [|Hn1]; [assumption |].
    exfalso. apply Hn. apply HD. right. left. now split.
Qed.

(** ** The outer join *)

Section OuterJoin.

Lemma insert_key_perm (k : cell) (l : list cell) :
  Permutation (insert_key k l) (k :: l).
Proof.
  induction l as [| x xs IH]; simpl; [apply Permutation_refl |].
  destruct (cell_leb k x); [apply Permutation_refl |].
  eapply perm_trans; [apply perm_skip, IH | apply perm_swap].
Qed.

Lemma sort_keys_perm (l : list cell) : Permutation (sort_keys l) l.
Proof.
  induction l as [| k l IH]; simpl; [constructor |].
  eapply perm_trans; [apply insert_key_perm | now apply perm_skip].
Qed.

Lemma count_repeat (k x : cell) (n : nat) :
  count k (repeat x n) = if cell_eqb x k then n else 0.
Proof.
  unfold count, cell_eqb.
  induction n as [| n IH]; simpl.
  - now destruct (cell_eq_dec x k).
  - rewrite IH. destruct (cell_eq_dec x k); reflexivity.
Qed.

Lemma count_app (k : cell) (l l' : list cell) :
  count k (l ++ l') = count k l + count k l'.
Proof. apply count_occ_app. Qed.

Lemma count_In (k : cell) (l : list cell) : In k l <-> count k l > 0.
Proof. apply count_occ_In. Qed.

Lemma count_zero (k : cell) (l : list cell) : ~ In k l <-> count k l = 0.
Proof. apply count_occ_not_In. Qed.

(** Copies of each label of [keys], [h] of them: the label [k] is
    there as often as it is in [keys], times [h k]. *)
Lemma count_flat_repeat (h : cell -> nat) (k : cell) (keys : list cell) :
  count k (flat_map (fun x => repeat x (h x)) keys) = count k keys * h k.
Proof.
  induction keys as [| x keys IH]; simpl; [reflexivity |].
  rewrite count_app, IH, count_repeat. unfold count at 2. simpl.
  fold (count k keys).
  unfold cell_eqb. destruct (cell_eq_dec x k) as [-> |]; lia.
Qed.

Lemma join_keys_count (lk rk : list cell) (k : cell) :
  count k (join_keys lk rk) = if in_dec cell_eq_dec k (lk ++ rk) then 1 else 0.
Proof.
  unfold join_keys, count.
  rewrite (proj1 (Permutation_count_occ cell_eq_dec _ _) (sort_keys_perm _)).
  destruct (in_dec cell_eq_dec k (lk ++ rk)) as [Hin | Hout].
  - apply NoDup_count_occ'; [apply NoDup_nodup | now apply nodup_In].
  - apply count_occ_not_In. now rewrite nodup_In.
Qed.

Lemma outer_join_rows (lk rk : list cell) :
  outer_join lk rk
  = flat_map (fun k => repeat (k, tag_of lk rk k) (mult lk rk k))
             (join_keys lk rk).
Proof.
  unfold outer_join, join_keys. apply flat_map_ext. intros k.
  unfold tag_of, mult.
  destruct (count k lk), (count k rk); reflexivity.
Qed.

Lemma index_where_join (tag : indicator) (lk rk : list cell) :
  index_where tag (outer_join lk rk)
  = flat_map (fun k => repeat k (if indicator_eqb (tag_of lk rk k) tag
                                 then mult lk rk k else 0))
             (join_keys lk rk).
Proof.
  rewrite outer_join_rows. unfold index_where.
  induction (join_keys lk rk) as [| k keys IH]; simpl; [reflexivity |].
  rewrite filter_app, map_app, IH. f_equal.
  generalize (mult lk rk k) as n. intros n.
  destruct (indicator_eqb (tag_of lk rk k) tag) eqn:E.
  - induction n as [| n IHn]; simpl; [reflexivity |]. rewrite E. simpl.
    now rewrite IHn.
  - induction n as [| n IHn]; simpl; [reflexivity |]. now rewrite E.
Qed.

(** How often a key is in one of the three index selections. *)
Lemma count_index_where (tag : indicator) (lk rk : list cell) (k : cell) :
  count k (index_where tag (outer_join lk rk))
  = if indicator_eqb (tag_of lk rk k) tag then mult lk rk k else 0.
Proof.
  rewrite index_where_join.
  rewrite (count_flat_repeat
             (fun k => if indicator_eqb (tag_of lk rk k) tag
                       then mult lk rk k else 0)).
  rewrite join_keys_count.
  destruct (in_dec cell_eq_dec k (lk ++ rk)) as [Hin | Hout]; [lia |].
  assert (Hl : count k lk = 0).
  { apply count_zero. intros H. apply Hout, in_or_app. now left. }
  assert (Hr : count k rk = 0).
  { apply count_zero. intros H. apply Hout, in_or_app. now right. }
  unfold mult. rewrite Hl, Hr. now destruct (indicator_eqb _ _).
Qed.

Lemma indicator_eqb_eq (a b : indicator) : indicator_eqb a b = true <-> a = b.
Proof. destruct a, b; simpl; split; congruence. Qed.

Lemma In_index_where (tag : indicator) (lk rk : list cell) (k : cell) :
  In k (index_where tag (outer_join lk rk))
  <-> tag_of lk rk k = tag /\ (In k lk \/ In k rk).
Proof.
  rewrite count_In, count_index_where, !count_In.
  unfold mult, tag_of.
  destruct (count k lk) as [| m] eqn:Hl, (count k rk) as [| n] eqn:Hr;
    destruct tag; simpl; split; intros H;
    try lia; try (split; [reflexivity | lia]);
    try (destruct H as [H _]; discriminate).
Qed.

Lemma tag_of_both (lk rk : list cell) (k : cell) :
  tag_of lk rk k = both <-> In k lk /\ In k rk.
Proof.
  rewrite !count_In. unfold tag_of.
  destruct (count k lk), (count k rk); split; intros H;
    try discriminate; try lia; try reflexivity.
Qed.

Lemma tag_of_left (lk rk : list cell) (k : cell) :
  In k lk \/ In k rk -> (tag_of lk rk k = left_only <-> In k lk /\ ~ In k rk).
Proof.
  rewrite count_zero, !count_In. unfold tag_of.
  destruct (count k lk), (count k rk); intros H0; split; intros H;
    try discriminate; try lia; try reflexivity.
Qed.

Lemma tag_of_right (lk rk : list cell) (k : cell) :
  In k lk \/ In k rk -> (tag_of lk rk k = right_only <-> In k rk /\ ~ In k lk).
Proof.
  rewrite count_zero, !count_In. unfold tag_of.
  destruct (count k lk), (count k rk); intros H0; split; intros H;
    try discriminate; try lia; try reflexivity.
Qed.

End OuterJoin.

(** ** Row alignment *)

(** A frame whose index is the join key: what the key setup of
    [get_excel_diff] leaves. *)
Lemma merge_on_index (df_old df_new : DataFrame string) (name : string)
    (df_merged : list (cell * indicator)) :
  df_index_name df_old = Some name ->
  df_index_name df_new = Some name ->
  merge df_old df_new name = Ok df_merged ->
  df_merged = outer_join (df_index df_old) (df_index df_new).
Proof.
  intros Ho Hn. unfold merge, label_or_level_values.
  rewrite Ho, Hn, String.eqb_refl.
  destruct (index_of name (df_columns df_new)); simpl; [discriminate |].
  destruct (index_of name (df_columns df_old)); simpl; [discriminate |].
  congruence.
Qed.

Lemma merge_on_index_ok (df_old df_new : DataFrame string) (name : string) :
  df_index_name df_old = Some name ->
  df_index_name df_new = Some name ->
  ~ In name (df_columns df_old) ->
  ~ In name (df_columns df_new) ->
  merge df_old df_new name = Ok (outer_join (df_index df_old) (df_index df_new)).
Proof.
  intros Ho Hn Co Cn. unfold merge, label_or_level_values.
  rewrite Ho, Hn, String.eqb_refl.
  apply index_of_None in Co, Cn. rewrite Co, Cn. reflexivity.
Qed.

(** C6.  The three key sets read from the merged frame (in both, only in
    old, only in new) are pairwise disjoint, and a key is in one of them
    if and only if it is a key of the old or of the new frame. *)
Theorem key_sets_disjoint_and_cover
    (df_old df_new : DataFrame string) (name : string)
    (df_merged : list (cell * indicator)) :
  df_index_name df_old = Some name ->
  df_index_name df_new = Some name ->
  merge df_old df_new name = Ok df_merged ->
  let in_both := index_where both df_merged in
  let old_only := index_where left_only df_merged in
  let new_only := index_where right_only df_merged in
  (forall k, In k in_both -> ~ In k old_only)
  /\ (forall k, In k in_both -> ~ In k new_only)
  /\ (forall k, In k old_only -> ~ In k new_only)
  /\ (forall k, In k in_both \/ In k old_only \/ In k new_only
                <-> In k (df_index df_old) \/ In k (df_index df_new))
  /\ (forall k, In k in_both
                <-> In k (df_index df_old) /\ In k (df_index df_new))
  /\ (forall k, In k old_only
                <-> In k (df_index df_old) /\ ~ In k (df_index df_new))
  /\ (forall k, In k new_only
                <-> In k (df_index df_new) /\ ~ In k (df_index df_old)).
Proof.
  intros Ho Hn Hm. rewrite (merge_on_index _ _ Ho Hn Hm). cbv zeta.
  set (lk := df_index df_old). set (rk := df_index df_new).
  assert (B : forall k, In k (index_where both (outer_join lk rk))
                        <-> In k lk /\ In k rk).
  { intros k. rewrite In_index_where, tag_of_both. tauto. }
  assert (L : forall k, In k (index_where left_only (outer_join lk rk))
                        <-> In k lk /\ ~ In k rk).
  { intros k. rewrite In_index_where. split.
    - intros [Ht Hin]. now apply tag_of_left.
    - intros [H1 H2]. split; [apply tag_of_left |]; tauto. }
  assert (R : forall k, In k (index_where right_only (outer_join lk rk))
                        <-> In k rk /\ ~ In k lk).
  { intros k. rewrite In_index_where. split.
    - intros [Ht Hin]. now apply tag_of_right.
    - intros [H1 H2]. split; [apply tag_of_right |]; tauto. }
  refine (conj _ (conj _ (conj _ (conj _ (conj B (conj L R)))))).
  - intros k Hb Hl. apply B in Hb. apply L in Hl. tauto.
  - intros k Hb Hr. apply B in Hb. apply R in Hr. tauto.
  - intros k Hl Hr. apply L in Hl. apply R in Hr. tauto.
  - intros k. rewrite B, L, R.
    destruct (in_dec cell_eq_dec k lk), (in_dec cell_eq_dec k rk); tauto.
Qed.

Lemma key_sets_disjoint_and_cover_witness :
  merge old_1_2 new_1_3 "id"
  = Ok [(Num 1, both); (Num 2, left_only); (Num 3, right_only)]%Z
  /\ ~ In (Num 1)
          (index_where left_only
             [(Num 1, both); (Num 2, left_only); (Num 3, right_only)]%Z).
Proof.
  split; [reflexivity |].
  apply (proj1 (key_sets_disjoint_and_cover
                  old_1_2 new_1_3 eq_refl eq_refl eq_refl)).
  simpl. now left.
Defined.

(** ** Selection by label *)

Section Loc.

Lemma rows_at_In (l : cell) (rows : list row) (r : row) :
  In r (rows_at l rows) <-> In r rows /\ fst r = l.
Proof.
  unfold rows_at. rewrite filter_In, cell_eqb_eq. tauto.
Qed.

Lemma rows_at_index (l : cell) (rows : list row) :
  map fst (rows_at l rows) = repeat l (count l (map fst rows)).
Proof.
  unfold rows_at, count. induction rows as [| r rows IH]; simpl; [reflexivity |].
  unfold cell_eqb at 1. destruct (cell_eq_dec (fst r) l) as [E | E]; simpl.
  - rewrite IH. now rewrite E.
  - exact IH.
Qed.

Lemma rows_at_nil (l : cell) (rows : list row) :
  rows_at l rows = [] <-> ~ In l (map fst rows).
Proof.
  split.
  - intros H Hin. apply in_map_iff in Hin. destruct Hin as [r [Hr Hin]].
    assert (K : In r (rows_at l rows)) by (apply rows_at_In; now split).
    rewrite H in K. exact K.
  - intros H. destruct (rows_at l rows) as [| r rs] eqn:E; [reflexivity |].
    exfalso. apply H.
    assert (K : In r (rows_at l rows)) by (rewrite E; now left).
    apply rows_at_In in K. destruct K as [K1 K2]. subst l. now apply in_map.
Qed.

Lemma loc_rows_ok (labels : list cell) (rows : list row) :
  incl labels (map fst rows) ->
  loc_rows labels rows = Ok (flat_map (fun l => rows_at l rows) labels).
Proof.
  induction labels as [| l ls IH]; intros H; simpl; [reflexivity |].
  destruct (rows_at l rows) as [| r rs] eqn:E.
  - exfalso. apply rows_at_nil in E. apply E, H. now left.
  - rewrite IH; [reflexivity |]. intros x Hx. apply H. now right.
Qed.

Lemma loc_rows_inv (labels : list cell) (rows rs : list row) :
  loc_rows labels rows = Ok rs ->
  rs = flat_map (fun l => rows_at l rows) labels /\ incl labels (map fst rows).
Proof.
  revert rs. induction labels as [| l ls IH]; intros rs H; simpl in *.
  - injection H as <-. split; [reflexivity | intros x []].
  - destruct (rows_at l rows) as [| r hit] eqn:E; [discriminate |].
    destruct (loc_rows ls rows) as [rest | e]; simpl in H; [| discriminate].
    injection H as <-. destruct (IH rest eq_refl) as [-> Hincl].
    split; [reflexivity |].
    intros x [<- | Hx]; [| now apply Hincl].
    destruct (in_dec cell_eq_dec l (map fst rows)) as [| Hn]; [assumption |].
    apply rows_at_nil in Hn. congruence.
Qed.

Lemma loc_ok {L} (labels : list cell) (df : DataFrame L) :
  incl labels (df_index df) -> loc labels df = Ok (rows_of labels df).
Proof.
  intros H. unfold loc. rewrite loc_rows_ok by exact H. reflexivity.
Qed.

Lemma rows_of_In {L} (labels : list cell) (df : DataFrame L) (r : row) :
  In r (df_rows (rows_of labels df)) <-> In r (df_rows df) /\ In (fst r) labels.
Proof.
  unfold rows_of; simpl. rewrite in_flat_map. split.
  - intros [l [Hl Hr]]. apply rows_at_In in Hr. destruct Hr as [Hr <-]. now split.
  - intros [Hr Hl]. exists (fst r). split; [assumption |].
    apply rows_at_In. now split.
Qed.

Lemma rows_of_index {L} (labels : list cell) (df : DataFrame L) :
  df_index (rows_of labels df)
  = flat_map (fun l => repeat l (count l (df_index df))) labels.
Proof.
  unfold df_index, rows_of; simpl.
  induction labels as [| l ls IH]; simpl; [reflexivity |].
  rewrite map_app, rows_at_index. f_equal. exact IH.
Qed.

Lemma count_rows_of {L} (labels : list cell) (df : DataFrame L) (k : cell) :
  count k (df_index (rows_of labels df)) = count k labels * count k (df_index df).
Proof.
  rewrite rows_of_index. apply (count_flat_repeat (fun l => count l (df_index df))).
Qed.

Lemma in_both_incl (df_old df_new : DataFrame string) :
  incl (in_both df_old df_new) (df_index df_old)
  /\ incl (in_both df_old df_new) (df_index df_new).
Proof.
  split; intros k H; apply In_index_where in H; destruct H as [H _];
    apply tag_of_both in H; tauto.
Qed.

Lemma in_old_only_spec (df_old df_new : DataFrame string) (k : cell) :
  In k (in_old_only df_old df_new)
  <-> In k (df_index df_old) /\ ~ In k (df_index df_new).
Proof.
  unfold in_old_only. rewrite In_index_where. split.
  - intros [Ht Hin]. now apply tag_of_left.
  - intros [H1 H2]. split; [apply tag_of_left |]; tauto.
Qed.

Lemma in_new_only_spec (df_old df_new : DataFrame string) (k : cell) :
  In k (in_new_only df_old df_new)
  <-> In k (df_index df_new) /\ ~ In k (df_index df_old).
Proof.
  unfold in_new_only. rewrite In_index_where. split.
  - intros [Ht Hin]. now apply tag_of_right.
  - intros [H1 H2]. split; [apply tag_of_right |]; tauto.
Qed.

End Loc.

(** ** The sheet comparison on frames aligned on their index *)

(** Once the merge went through, no selection by label raises: what is
    left of [get_sheet_diff] is the comparison and the reference columns. *)
Lemma diff_reconciled_eq (self : t) (df_old df_new : DataFrame string)
    (df_merged : list (cell * indicator)) :
  df_index_name df_old = Some (index_name self) ->
  df_index_name df_new = Some (index_name self) ->
  merge df_old df_new (index_name self) = Ok df_merged ->
  diff_reconciled self df_old df_new
  = (c <- cell_cmp self (rows_of (in_both df_old df_new) df_old)
                        (rows_of (in_both df_old df_new) df_new) ;;
     c' <- add_ref_cols self (rows_of (in_both df_old df_new) df_old) c ;;
     Ok (mkDiff c' (rows_of (in_new_only df_old df_new) df_new)
                (rows_of (in_old_only df_old df_new) df_old))).
Proof.
  intros Ho Hn Hm. unfold diff_reconciled. rewrite Hm. simpl.
  rewrite (merge_on_index _ _ Ho Hn Hm).
  fold (in_both df_old df_new) (in_old_only df_old df_new)
       (in_new_only df_old df_new).
  destruct (in_both_incl df_old df_new) as [Bo Bn].
  rewrite (loc_ok _ Bo), (loc_ok _ Bn). simpl.
  destruct (cell_cmp self _ _) as [c | e]; simpl; [| reflexivity].
  destruct (add_ref_cols self _ c) as [c' | e]; simpl; [| reflexivity].
  rewrite loc_ok by (intros k H; now apply in_new_only_spec in H).
  rewrite loc_ok by (intros k H; now apply in_old_only_spec in H).
  reflexivity.
Qed.

Lemma diff_reconciled_merged (self : t) (df_old df_new : DataFrame string)
    (r : sheet_diff) :
  diff_reconciled self df_old df_new = Ok r ->
  exists df_merged, merge df_old df_new (index_name self) = Ok df_merged.
Proof.
  unfold diff_reconciled.
  destruct (merge df_old df_new (index_name self)) as [m | e]; simpl;
    [eauto | discriminate].
Qed.

Lemma get_sheet_diff_eq (self : t) (df_old df_new : DataFrame string) :
  get_sheet_diff self df_old df_new
  = (delete_ignored_and_conflicting_cols self df_old df_new,
     diff_reconciled self
       (fst (delete_ignored_and_conflicting_cols self df_old df_new))
       (snd (delete_ignored_and_conflicting_cols self df_old df_new))).
Proof.
  unfold get_sheet_diff.
  now destruct (delete_ignored_and_conflicting_cols self df_old df_new).
Qed.

(** Reconciliation touches columns only: index and index name stay. *)
Lemma reconciled_index (self : t) (df1 df2 : DataFrame string) :
  let p := delete_ignored_and_conflicting_cols self df1 df2 in
  df_index (fst p) = df_index df1 /\ df_index (snd p) = df_index df2
  /\ df_index_name (fst p) = df_index_name df1
  /\ df_index_name (snd p) = df_index_name df2.
Proof.
  unfold delete_ignored_and_conflicting_cols, df_index, drop; simpl.
  rewrite !map_map; simpl. repeat split; reflexivity.
Qed.



(** ** The cell comparison *)

Section Compare.

Lemma compare_labels (na nb : string) (a b : DataFrame string) :
  (exists c, compare na nb a b = Ok c)
  <-> df_columns a = df_columns b /\ df_index a = df_index b.
Proof.
  unfold compare.
  destruct (list_eqb String.eqb (df_columns a) (df_columns b)) eqn:Ec;
    destruct (list_eqb cell_eqb (df_index a) (df_index b)) eqn:Ei; simpl;
    (split; [intros [c H]; try discriminate | intros [H1 H2]]).
  - split; [apply (list_eqb_eq _ String.eqb_eq) in Ec
           | apply (list_eqb_eq _ cell_eqb_eq) in Ei]; assumption.
  - eauto.
  - apply (list_eqb_eq _ cell_eqb_eq) in H2. congruence.
  - apply (list_eqb_eq _ String.eqb_eq) in H1. congruence.
  - apply (list_eqb_eq _ String.eqb_eq) in H1. congruence.
Qed.

(** The comparison either returns or raises the one error. *)
Lemma cell_cmp_cases (self : t) (a b : DataFrame string) :
  (df_columns a = df_columns b /\ df_index a = df_index b
   /\ exists c, compare (old_stem self) (new_stem self) a b = Ok c
                /\ cell_cmp self a b = Ok (fillna (Str "") c))
  \/ ((df_columns a <> df_columns b \/ df_index a <> df_index b)
      /\ cell_cmp self a b = Raise duplicate_index_error).
Proof.
  unfold cell_cmp.
  destruct (compare (old_stem self) (new_stem self) a b) as [c | e] eqn:E.
  - left. destruct (proj1 (compare_labels _ _ a b) (ex_intro _ c E)) as [H1 H2].
    repeat split; try assumption. now exists c.
  - right. unfold compare in E.
    destruct (list_eqb String.eqb (df_columns a) (df_columns b)) eqn:Ec;
      destruct (list_eqb cell_eqb (df_index a) (df_index b)) eqn:Ei;
      simpl in E; try discriminate; injection E as <-;
      (split; [| reflexivity]).
    + right. intros H. apply (list_eqb_eq _ cell_eqb_eq) in H. congruence.
    + left. intros H. apply (list_eqb_eq _ String.eqb_eq) in H. congruence.
    + left. intros H. apply (list_eqb_eq _ String.eqb_eq) in H. congruence.
Qed.

Lemma count_in_both (df_old df_new : DataFrame string) (k : cell) :
  count k (in_both df_old df_new)
  = count k (df_index df_old) * count k (df_index df_new).
Proof.
  unfold in_both. rewrite count_index_where. unfold tag_of, mult.
  destruct (count k (df_index df_old)), (count k (df_index df_new));
    simpl; lia.
Qed.

Lemma count_in_old_only (df_old df_new : DataFrame string) (k : cell) :
  ~ In k (df_index df_new) ->
  count k (in_old_only df_old df_new) = count k (df_index df_old).
Proof.
  intros H. apply count_zero in H.
  unfold in_old_only. rewrite count_index_where. unfold tag_of, mult.
  rewrite H. now destruct (count k (df_index df_old)).
Qed.

Lemma count_in_new_only (df_old df_new : DataFrame string) (k : cell) :
  ~ In k (df_index df_old) ->
  count k (in_new_only df_old df_new) = count k (df_index df_new).
Proof.
  intros H. apply count_zero in H.
  unfold in_new_only. rewrite count_index_where. unfold tag_of, mult.
  rewrite H. now destruct (count k (df_index df_new)).
Qed.

(** A shared key that is not equally frequent in the two frames makes the
    two selections of the rows in both carry different indexes. *)
Lemma unequal_count_unequal_index (df_old df_new : DataFrame string) (k : cell) :
  In k (df_index df_old) -> In k (df_index df_new) ->
  count k (df_index df_old) <> count k (df_index df_new) ->
  df_index (rows_of (in_both df_old df_new) df_old)
  <> df_index (rows_of (in_both df_old df_new) df_new).
Proof.
  intros Ho Hn Hne Heq.
  assert (K : count k (df_index (rows_of (in_both df_old df_new) df_old))
              = count k (df_index (rows_of (in_both df_old df_new) df_new)))
    by now rewrite Heq.
  rewrite !count_rows_of, count_in_both in K.
  apply count_In in Ho, Hn. nia.
Qed.


End Compare.

Lemma reconciled_columns_incl (self : t) (df1 df2 : DataFrame string) (c : string) :
  (In c (df_columns (fst (delete_ignored_and_conflicting_cols self df1 df2)))
   -> In c (df_columns df1))
  /\ (In c (df_columns (snd (delete_ignored_and_conflicting_cols self df1 df2)))
      -> In c (df_columns df2)).
Proof.
  destruct (reconciled_columns self df1 df2) as [H1 H2].
  rewrite H1, H2, !filter_In. tauto.
Qed.

(** C2, as amended.  When a key of both frames occurs a different number
    of times in the old frame than in the new one (so in particular when
    it is repeated in the old frame and occurs once in the new), the sheet
    comparison raises "Possibly duplicate index", raised from the
    [ValueError] of the comparison, and returns no result. *)
Theorem unequal_multiplicity_raises_duplicate_index
    (self : t) (df_old df_new : DataFrame string) (k : cell) :
  df_index_name df_old = Some (index_name self) ->
  df_index_name df_new = Some (index_name self) ->
  ~ In (index_name self) (df_columns df_old) ->
  ~ In (index_name self) (df_columns df_new) ->
  In k (df_index df_old) -> In k (df_index df_new) ->
  count k (df_index df_old) <> count k (df_index df_new) ->
  snd (get_sheet_diff self df_old df_new) = Raise duplicate_index_error.
Proof.
  intros Ho Hn Co Cn Ko Kn Hne. rewrite get_sheet_diff_eq. cbn [snd].
  destruct (reconciled_index self df_old df_new) as (Io & In_ & No & Nn).
  destruct (reconciled_columns_incl self df_old df_new (index_name self))
    as [Co' Cn'].
  set (o := fst (delete_ignored_and_conflicting_cols self df_old df_new)) in *.
  set (n := snd (delete_ignored_and_conflicting_cols self df_old df_new)) in *.
  rewrite Ho in No. rewrite Hn in Nn.
  assert (Hm : merge o n (index_name self)
               = Ok (outer_join (df_index o) (df_index n)))
    by (apply merge_on_index_ok; tauto).
  rewrite (diff_reconciled_eq _ _ _ No Nn Hm).
  destruct (cell_cmp_cases self (rows_of (in_both o n) o) (rows_of (in_both o n) n))
    as [(_ & Hi & _) | [_ ->]]; [| reflexivity].
  exfalso. revert Hi. apply (unequal_count_unequal_index o n k);
    rewrite ?Io, ?In_; assumption.
Qed.

Lemma unequal_multiplicity_raises_duplicate_index_witness :
  count (Num 1) (df_index old_twice) = 2
  /\ count (Num 1) (df_index new_once) = 1
  /\ snd (get_sheet_diff by_id old_twice new_once) = Raise duplicate_index_error.
Proof.
  split; [reflexivity |]. split; [reflexivity |].
  apply (unequal_multiplicity_raises_duplicate_index
           by_id old_twice new_once (Num 1) eq_refl eq_refl).
  - simpl. intros [H | []]. discriminate.
  - simpl. intros [H | []]. discriminate.
  - simpl. now left.
  - simpl. now left.
  - vm_compute. discriminate.
Defined.

(** C2 as worded fails: key 1 is twice in the old frame and is in the new
    frame (twice as well), and the comparison returns a result. *)
Lemma repeated_shared_key_can_return :
  ~ fails_on_repeated_shared_key by_id old_twice new_twice.
Proof.
  intros H. destruct (H (Num 1)) as [e He].
  - vm_compute. lia.
  - simpl. now left.
  - vm_compute in He. discriminate.
Qed.

(** ** Repeated keys outside the rows in both *)

Section Repeated.

Lemma rows_at_app (k : cell) (a b : list row) :
  rows_at k (a ++ b) = rows_at k a ++ rows_at k b.
Proof. apply filter_app. Qed.

Lemma rows_at_rows_at (k l : cell) (rows : list row) :
  rows_at k (rows_at l rows) = if cell_eqb l k then rows_at k rows else [].
Proof.
  unfold rows_at. induction rows as [| r rows IH]; simpl.
  - now destruct (cell_eqb l k).
  - destruct (cell_eqb (fst r) l) eqn:E1; simpl.
    + apply cell_eqb_eq in E1. rewrite E1.
      destruct (cell_eqb l k) eqn:E2; simpl; rewrite IH; reflexivity.
    + rewrite IH. destruct (cell_eqb l k) eqn:E2; [| reflexivity].
      apply cell_eqb_eq in E2. subst l. now rewrite E1.
Qed.

(** Selecting by labels among which [k] occurs [c] times returns the
    rows labelled [k] as a block, [c] times over. *)
Lemma rows_at_rows_of {L} (k : cell) (labels : list cell) (df : DataFrame L) :
  rows_at k (df_rows (rows_of labels df))
  = List.concat (repeat (rows_at k (df_rows df)) (count k labels)).
Proof.
  unfold rows_of, count; simpl.
  induction labels as [| l ls IH]; simpl; [reflexivity |].
  rewrite rows_at_app, rows_at_rows_at, IH. unfold cell_eqb.
  destruct (cell_eq_dec l k); reflexivity.
Qed.








End Repeated.



(** ** The rows of the comparison *)

Section ChangedRows.

Lemma map2_In {A B C} (f : A -> B -> C) (l : list A) (l' : list B) (x : C) :
  In x (map2 f l l') -> exists a b, In (a, b) (combine l l') /\ x = f a b.
Proof.
  revert l'. induction l as [| a l IH]; intros [| b l']; simpl; try tauto.
  intros [<- | H].
  - exists a, b. split; [now left | reflexivity].
  - destruct (IH _ H) as (a' & b' & Hin & ->). exists a', b'.
    split; [now right | reflexivity].
Qed.

Lemma combine_same_key (a b : list row) (ra rb : row) :
  map fst a = map fst b -> In (ra, rb) (combine a b) -> fst ra = fst rb.
Proof.
  revert b. induction a as [| x a IH]; intros [| y b]; simpl; try tauto.
  intros H [Hin | Hin].
  - injection Hin as <- <-. now injection H.
  - injection H as _ H. now apply IH with b.
Qed.

Lemma combine_same (A : Type) (l : list A) (p : A * A) :
  In p (combine l l) -> fst p = snd p.
Proof.
  induction l as [| a l IH]; simpl; [tauto |].
  intros [<- | H]; [reflexivity | now apply IH].
Qed.

Lemma any_row_mask (ra rb : row) :
  any (row_mask ra rb) = true ->
  exists j x y, nth_error (snd ra) j = Some x /\ nth_error (snd rb) j = Some y
                /\ differs x y = true.
Proof.
  unfold row_mask, any. generalize (snd ra) as u, (snd rb) as v.
  induction u as [| x u IH]; intros [| y v]; simpl; try discriminate.
  destruct (differs x y) eqn:E; simpl.
  - intros _. exists 0, x, y. now repeat split.
  - intros H. destruct (IH _ H) as (j & x' & y' & H1 & H2 & H3).
    exists (S j), x', y'. now repeat split.
Qed.

Lemma any_row_mask_same (ra rb : row) :
  snd ra = snd rb -> any (row_mask ra rb) = false.
Proof.
  unfold row_mask, any. intros <-.
  induction (snd ra) as [| x u IH]; simpl; [reflexivity |].
  unfold differs at 1. now rewrite cell_eqb_refl.
Qed.

Lemma filter_nil {A} (f : A -> bool) (l : list A) :
  (forall x, In x l -> f x = false) -> filter f l = [].
Proof.
  induction l as [| a l IH]; intros H; simpl; [reflexivity |].
  rewrite (H a) by now left. apply IH. intros x Hx. apply H. now right.
Qed.

Lemma no_member_nil {A} (l : list A) : (forall x, ~ In x l) -> l = [].
Proof.
  destruct l as [| a l]; [reflexivity |]. intros H. exfalso.
  apply (H a). now left.
Qed.

(** Every row of a comparison comes from a row of [a] and a row of [b]
    at the same place, with the same label and a differing cell. *)
Lemma compare_row_source (na nb : string) (a b : DataFrame string)
    (c : DataFrame (string * string)) (x : row) :
  compare na nb a b = Ok c -> In x (df_rows c) ->
  exists ra rb, In ra (df_rows a) /\ In rb (df_rows b)
                /\ fst ra = fst x /\ fst rb = fst x
                /\ any (row_mask ra rb) = true.
Proof.
  intros Hc Hx.
  destruct (proj1 (compare_labels na nb a b) (ex_intro _ c Hc)) as [_ Hi].
  unfold compare in Hc.
  destruct (list_eqb String.eqb (df_columns a) (df_columns b)
            && list_eqb cell_eqb (df_index a) (df_index b)); [| discriminate].
  injection Hc as <-. cbn [df_rows] in Hx.
  apply in_map_iff in Hx. destruct Hx as [[ra rb] [<- Hp]].
  apply filter_In in Hp. destruct Hp as [Hp Hany]. cbn [fst snd] in *.
  exists ra, rb.
  split; [eapply in_combine_l, Hp |]. split; [eapply in_combine_r, Hp |].
  split; [reflexivity |]. split; [| exact Hany].
  change (fst rb = fst ra).
  symmetry. eapply combine_same_key; [exact Hi | exact Hp].
Qed.

(** A frame compared with itself has no differing row. *)
Lemma compare_same (na nb : string) (a : DataFrame string)
    (c : DataFrame (string * string)) :
  compare na nb a a = Ok c -> df_rows c = [].
Proof.
  unfold compare.
  destruct (list_eqb String.eqb (df_columns a) (df_columns a)
            && list_eqb cell_eqb (df_index a) (df_index a)); [| discriminate].
  intros H. injection H as <-. cbn [df_rows].
  rewrite filter_nil; [reflexivity |].
  intros p Hp. apply combine_same in Hp. apply any_row_mask_same. now rewrite Hp.
Qed.

Lemma fillna_rows {L} (v : cell) (c : DataFrame L) (x : row) :
  In x (df_rows (fillna v c)) -> exists y, In y (df_rows c) /\ fst y = fst x.
Proof.
  unfold fillna; simpl. intros H. apply in_map_iff in H.
  destruct H as [y [<- Hy]]. now exists y.
Qed.

Lemma concat_columns_rows {L} (a b c : DataFrame L) (x : row) :
  concat_columns a b = Ok c -> In x (df_rows c) ->
  exists ra rb, In ra (df_rows a) /\ In rb (df_rows b)
                /\ fst ra = fst x /\ fst rb = fst x
                /\ snd x = snd ra ++ snd rb.
Proof.
  unfold concat_columns.
  destruct (list_eqb cell_eqb (df_index a) (df_index b)) eqn:E; [| discriminate].
  apply (list_eqb_eq _ cell_eqb_eq) in E.
  intros H. injection H as <-. cbn [df_rows]. intros Hx.
  apply map2_In in Hx. destruct Hx as (ra & rb & Hp & ->).
  exists ra, rb. cbn [fst snd].
  split; [eapply in_combine_l, Hp |]. split; [eapply in_combine_r, Hp |].
  split; [reflexivity |]. split; [| reflexivity].
  change (fst rb = fst ra).
  symmetry. eapply combine_same_key; [exact E | exact Hp].
Qed.

(** The reference columns add no row and keep the labels. *)
Lemma add_ref_cols_rows (self : t) (df_old_both : DataFrame string)
    (c c' : DataFrame (string * string)) (x : row) :
  add_ref_cols self df_old_both c = Ok c' -> In x (df_rows c') ->
  exists y, In y (df_rows c) /\ fst y = fst x.
Proof.
  unfold add_ref_cols.
  destruct (other_ref_cols self) as [[| c0 cs] |];
    try (intros H; injection H as <-; eauto).
  destruct (negb (df_empty c)); [| intros H; injection H as <-; eauto].
  destruct (loc2 (df_index c) (c0 :: cs) df_old_both) as [df_ref | e];
    cbn [rbind]; [| discriminate].
  intros H Hx. destruct (@concat_columns_rows _ _ _ _ _ H Hx) as (ra & rb & _ & Hb & _ & Hk & _).
  now exists rb.
Qed.

End ChangedRows.

(** C7.  When a sheet comparison returns, every row of [changed] carries
    the key of an old row and of a new row that differ in at least one
    compared column (the same position of the same column list); hence a
    key whose old and new rows agree on all compared columns has no row in
    [changed]. *)
Theorem changed_rows_have_a_differing_column
    (self : t) (df_old df_new : DataFrame string) (r : sheet_diff) :
  df_index_name df_old = Some (index_name self) ->
  df_index_name df_new = Some (index_name self) ->
  snd (get_sheet_diff self df_old df_new) = Ok r ->
  let df_old' := fst (fst (get_sheet_diff self df_old df_new)) in
  let df_new' := snd (fst (get_sheet_diff self df_old df_new)) in
  df_columns df_old' = df_columns df_new'
  /\ (forall x, In x (df_rows (changed r)) ->
        exists ro rn, In ro (df_rows df_old') /\ In rn (df_rows df_new')
                      /\ fst ro = fst x /\ fst rn = fst x
                      /\ exists j u v, nth_error (snd ro) j = Some u
                                       /\ nth_error (snd rn) j = Some v
                                       /\ differs u v = true)
  /\ (forall k,
        (forall ro rn, In ro (df_rows df_old') -> In rn (df_rows df_new') ->
                       fst ro = k -> fst rn = k -> snd ro = snd rn) ->
        ~ In k (df_index (changed r))).
Proof.
  intros Ho Hn. rewrite get_sheet_diff_eq. cbn [fst snd]. intros Hr.
  destruct (reconciled_index self df_old df_new) as (Io & In_ & No & Nn).
  set (o := fst (delete_ignored_and_conflicting_cols self df_old df_new)) in *.
  set (n := snd (delete_ignored_and_conflicting_cols self df_old df_new)) in *.
  rewrite Ho in No. rewrite Hn in Nn.
  destruct (diff_reconciled_merged _ _ _ Hr) as [m Hm].
  rewrite (diff_reconciled_eq _ _ _ No Nn Hm) in Hr.
  destruct (cell_cmp_cases self (rows_of (in_both o n) o) (rows_of (in_both o n) n))
    as [(Hc & _ & c & Hcmp & Hcc) | [_ Hcc]]; rewrite Hcc in Hr;
    cbn [rbind] in Hr; [| discriminate].
  destruct (add_ref_cols self _ _) as [c' | e] eqn:Hrefs; cbn [rbind] in Hr;
    [| discriminate].
  injection Hr as <-. cbn [changed].
  assert (Src : forall x, In x (df_rows c') ->
      exists ro rn, In ro (df_rows o) /\ In rn (df_rows n)
                    /\ fst ro = fst x /\ fst rn = fst x
                    /\ any (row_mask ro rn) = true).
  { intros x Hx.
    destruct (@add_ref_cols_rows _ _ _ _ _ Hrefs Hx) as (y & Hy & Ky).
    destruct (@fillna_rows _ _ _ _ Hy) as (z & Hz & Kz).
    destruct (@compare_row_source _ _ _ _ _ _ Hcmp Hz) as (ra & rb & Ha & Hb & Ka & Kb & Hany).
    apply rows_of_In in Ha, Hb.
    exists ra, rb. repeat split; try tauto; congruence. }
  split; [exact Hc |]. split.
  - intros x Hx. destruct (Src x Hx) as (ro & rn & H1 & H2 & H3 & H4 & Hany).
    exists ro, rn. repeat split; try assumption. now apply any_row_mask.
  - intros k Hsame Hk. unfold df_index in Hk. apply in_map_iff in Hk.
    destruct Hk as [x [<- Hx]].
    destruct (Src x Hx) as (ro & rn & H1 & H2 & H3 & H4 & Hany).
    rewrite (any_row_mask_same ro rn) in Hany; [discriminate |].
    now apply Hsame.
Qed.

Lemma changed_rows_have_a_differing_column_witness :
  snd (get_sheet_diff by_id old_a new_b) = Ok diff_a_b
  /\ exists ro rn, In ro (df_rows old_a) /\ In rn (df_rows new_b)
                   /\ fst ro = Num 1 /\ fst rn = Num 1
                   /\ exists j u v, nth_error (snd ro) j = Some u
                                    /\ nth_error (snd rn) j = Some v
                                    /\ differs u v = true.
Proof.
  split; [reflexivity |].
  apply (proj1 (proj2 (changed_rows_have_a_differing_column
                         by_id old_a new_b eq_refl eq_refl eq_refl))
               (Num 1, [Str "a"; Str "b"])).
  simpl. now left.
Defined.

(** ** A frame compared with itself *)

Lemma reconciled_same (self : t) (df : DataFrame string) :
  fst (delete_ignored_and_conflicting_cols self df df)
  = snd (delete_ignored_and_conflicting_cols self df df).
Proof. reflexivity. Qed.

Lemma in_old_only_same (df : DataFrame string) : in_old_only df df = [].
Proof.
  apply no_member_nil. intros k H. apply in_old_only_spec in H. tauto.
Qed.

Lemma in_new_only_same (df : DataFrame string) : in_new_only df df = [].
Proof.
  apply no_member_nil. intros k H. apply in_new_only_spec in H. tauto.
Qed.

Lemma df_empty_no_rows {L} (df : DataFrame L) :
  df_rows df = [] -> df_empty df = true.
Proof. unfold df_empty. now intros ->. Qed.

Lemma add_ref_cols_empty (self : t) (df_old_both : DataFrame string)
    (c : DataFrame (string * string)) :
  df_empty c = true -> add_ref_cols self df_old_both c = Ok c.
Proof.
  intros H. unfold add_ref_cols. rewrite H.
  now destruct (other_ref_cols self) as [[| c0 cs] |].
Qed.

(** C8.  A frame whose keys are all different, compared with itself,
    gives an empty [changed], an empty [added] and an empty [deleted]. *)
Theorem comparing_a_table_with_itself_is_empty
    (self : t) (df : DataFrame string) :
  df_index_name df = Some (index_name self) ->
  ~ In (index_name self) (df_columns df) ->
  NoDup (df_index df) ->
  exists r, snd (get_sheet_diff self df df) = Ok r
            /\ df_rows (changed r) = [] /\ df_empty (changed r) = true
            /\ df_rows (added r) = [] /\ df_empty (added r) = true
            /\ df_rows (deleted r) = [] /\ df_empty (deleted r) = true.
Proof.
  intros Hname Hcol _. rewrite get_sheet_diff_eq. cbn [snd].
  destruct (reconciled_index self df df) as (_ & _ & No & _).
  destruct (reconciled_columns_incl self df df (index_name self)) as [Co _].
  rewrite <- reconciled_same.
  set (d := fst (delete_ignored_and_conflicting_cols self df df)) in *.
  rewrite Hname in No.
  assert (Hm : merge d d (index_name self)
               = Ok (outer_join (df_index d) (df_index d)))
    by (apply merge_on_index_ok; tauto).
  rewrite (diff_reconciled_eq _ _ _ No No Hm).
  destruct (cell_cmp_cases self (rows_of (in_both d d) d) (rows_of (in_both d d) d))
    as [(_ & _ & c & Hcmp & ->) | [[H | H] _]]; [| now elim H | now elim H].
  apply compare_same in Hcmp. cbn [rbind].
  assert (Hrows : df_rows (fillna (Str "") c) = [])
    by (unfold fillna; simpl; now rewrite Hcmp).
  rewrite add_ref_cols_empty by now apply df_empty_no_rows.
  cbn [rbind]. rewrite in_old_only_same, in_new_only_same.
  eexists. split; [reflexivity |]. cbn [changed added deleted].
  repeat split; try exact Hrows; try reflexivity.
  now apply df_empty_no_rows.
Qed.

Lemma comparing_a_table_with_itself_is_empty_witness :
  NoDup (df_index old_1_2)
  /\ exists r, snd (get_sheet_diff by_id old_1_2 old_1_2) = Ok r
               /\ df_rows (changed r) = [] /\ df_empty (changed r) = true
               /\ df_rows (added r) = [] /\ df_empty (added r) = true
               /\ df_rows (deleted r) = [] /\ df_empty (deleted r) = true.
Proof.
  assert (N : NoDup (df_index old_1_2)).
  { simpl. repeat constructor; simpl; intros H;
      repeat (destruct H as [H | H]; try discriminate); exact H. }
  split; [exact N |].
  apply (comparing_a_table_with_itself_is_empty by_id old_1_2 eq_refl);
    [| exact N].
  simpl. intros [H | []]. discriminate.
Defined.

(** ** Reference columns *)

Section ReferenceColumns.

Lemma positions_inv (names cols : list string) (ps : list nat) :
  positions names cols = Ok ps ->
  incl names cols
  /\ forall r : row, map (fun i => nth i (snd r) NaN) ps
                     = map (fun c => cell_at cols c r) names.
Proof.
  revert ps. induction names as [| c cs IH]; simpl; intros ps H.
  - injection H as <-. split; [intros x [] | reflexivity].
  - destruct (index_of c cols) as [i |] eqn:E; [| discriminate].
    destruct (positions cs cols) as [rest |]; simpl in H; [| discriminate].
    injection H as <-. destruct (IH rest eq_refl) as [Hincl Hmap]. split.
    + intros x [<- | Hx]; [| now apply Hincl].
      eapply nth_error_In, index_of_Some, E.
    + intros r. simpl. rewrite Hmap. unfold cell_at at 2. now rewrite E.
Qed.

Lemma map2_Forall2 {C} (f : row -> row -> C) (a b : list row) :
  map fst a = map fst b ->
  Forall2 (fun x y => exists ra, In ra a /\ fst ra = fst y /\ x = f ra y)
          (map2 f a b) b.
Proof.
  revert b. induction a as [| ra a IH]; intros [| rb b] H; simpl;
    try discriminate; try constructor.
  - injection H as H _. exists ra. repeat split; [now left | exact H].
  - injection H as _ H. eapply Forall2_impl; [| apply IH, H].
    intros x y (r & Hr & Hk & ->). exists r. repeat split; [now right | exact Hk].
Qed.

Lemma without_refs_result (self : t) (df_old df_new : DataFrame string)
    (c' : DataFrame (string * string)) (a d : DataFrame string) :
  (x <- cell_cmp self df_old df_new ;;
   y <- add_ref_cols self df_old x ;; Ok (mkDiff y a d)) = Ok (mkDiff c' a d) ->
  exists c, cell_cmp self df_old df_new = Ok c
            /\ add_ref_cols self df_old c = Ok c'
            /\ (x <- cell_cmp (without_refs self) df_old df_new ;;
                y <- add_ref_cols (without_refs self) df_old x ;;
                Ok (mkDiff y a d)) = Ok (mkDiff c a d).
Proof.
  change (cell_cmp (without_refs self) df_old df_new)
    with (cell_cmp self df_old df_new).
  destruct (cell_cmp self df_old df_new) as [x | e]; cbn [rbind];
    [| discriminate].
  destruct (add_ref_cols self df_old x) as [y | e] eqn:E; cbn [rbind];
    [| discriminate].
  intros H. injection H as <-. exists x.
  split; [reflexivity |]. split; [exact E | reflexivity].
Qed.

End ReferenceColumns.

(** C4, as amended.  When reference columns are configured and the
    comparison returns a non-empty [changed], its columns are the
    reference columns, each once under the label (name, "-"), followed by
    the columns of the cell comparison, and each of its rows is the row of
    the cell comparison preceded by the values an old row of the same key
    has in the reference columns.  The reference columns are columns of
    the reconciled old frame, that is, columns that are compared. *)
Theorem reference_columns_are_prepended
    (self : t) (df_old df_new : DataFrame string) (r : sheet_diff)
    (ref_col : string) (ref_cols : list string) :
  df_index_name df_old = Some (index_name self) ->
  df_index_name df_new = Some (index_name self) ->
  other_ref_cols self = Some (ref_col :: ref_cols) ->
  snd (get_sheet_diff self df_old df_new) = Ok r ->
  df_empty (changed r) = false ->
  let df_old' := fst (fst (get_sheet_diff self df_old df_new)) in
  exists df_cell_cmp,
    snd (get_sheet_diff (without_refs self) df_old df_new)
    = Ok (mkDiff df_cell_cmp (added r) (deleted r))
    /\ df_columns (changed r)
       = map (fun c => (c, "-")) (ref_col :: ref_cols) ++ df_columns df_cell_cmp
    /\ Forall2 (fun x y =>
                  exists ro, In ro (df_rows df_old') /\ fst ro = fst y
                             /\ x = (fst y,
                                     map (fun c => cell_at (df_columns df_old') c ro)
                                         (ref_col :: ref_cols) ++ snd y))
               (df_rows (changed r)) (df_rows df_cell_cmp)
    /\ incl (ref_col :: ref_cols) (df_columns df_old').
Proof.
  intros Ho Hn Hrefs. rewrite !get_sheet_diff_eq. cbn [fst snd].
  change (delete_ignored_and_conflicting_cols (without_refs self) df_old df_new)
    with (delete_ignored_and_conflicting_cols self df_old df_new).
  destruct (reconciled_index self df_old df_new) as (Io & In_ & No & Nn).
  set (o := fst (delete_ignored_and_conflicting_cols self df_old df_new)) in *.
  set (n := snd (delete_ignored_and_conflicting_cols self df_old df_new)) in *.
  rewrite Ho in No. rewrite Hn in Nn. intros Hr Hne.
  destruct (diff_reconciled_merged _ _ _ Hr) as [m Hm].
  rewrite (diff_reconciled_eq _ _ _ No Nn Hm) in Hr.
  rewrite (diff_reconciled_eq (without_refs self) o n No Nn Hm).
  set (X := rows_of (in_both o n) o) in *.
  assert (Hshape : exists c', r = mkDiff c' (rows_of (in_new_only o n) n)
                                         (rows_of (in_old_only o n) o)).
  { destruct (cell_cmp self X _) as [x | e]; cbn [rbind] in Hr; [| discriminate].
    destruct (add_ref_cols self X x) as [y | e]; cbn [rbind] in Hr;
      [| discriminate].
    injection Hr as <-. eauto. }
  destruct Hshape as [c' ->]. cbn [changed added deleted] in *.
  destruct (@without_refs_result _ _ _ _ _ _ Hr) as (c & Hc & Hadd & Hplain).
  exists c. split; [exact Hplain |].
  unfold add_ref_cols in Hadd. rewrite Hrefs in Hadd.
  destruct (df_empty c) eqn:Hemp; cbn [negb] in Hadd.
  { injection Hadd as <-. congruence. }
  unfold loc2 in Hadd.
  destruct (loc_rows (df_index c) (df_rows X)) as [rs | e] eqn:Hrs;
    cbn [rbind] in Hadd; [| discriminate].
  destruct (positions (ref_col :: ref_cols) (df_columns X)) as [ps | e] eqn:Hps;
    cbn [rbind] in Hadd; [| discriminate].
  destruct (@positions_inv _ _ _ Hps) as [Hincl Hvals].
  destruct (@loc_rows_inv _ _ _ Hrs) as [-> _].
  unfold concat_columns in Hadd. cbn [df_index df_rows df_columns df_index_name] in Hadd.
  match type of Hadd with
  | (if ?b then _ else _) = _ => destruct b eqn:Hidx; [| discriminate]
  end.
  apply (list_eqb_eq _ cell_eqb_eq) in Hidx.
  injection Hadd as <-. cbn [df_columns df_rows].
  split; [reflexivity |]. split; [| exact Hincl].
  eapply Forall2_impl; [| apply map2_Forall2, Hidx].
  intros x y (ra & Hra & Hk & ->). cbn [fst snd].
  apply in_map_iff in Hra. destruct Hra as (r0 & <- & Hr0).
  cbn [fst snd] in *. exists r0. split; [| split; [exact Hk |]].
  - apply in_flat_map in Hr0. destruct Hr0 as (l & _ & Hl).
    apply rows_at_In in Hl. destruct Hl as [Hl _].
    now apply (rows_of_In (in_both o n) o r0) in Hl.
  - rewrite Hvals, Hk. reflexivity.
Qed.

Lemma reference_columns_are_prepended_witness :
  snd (get_sheet_diff by_id_ref_val old_a new_b) = Ok diff_a_b_ref
  /\ df_empty (changed diff_a_b_ref) = false
  /\ exists df_cell_cmp,
       df_columns (changed diff_a_b_ref)
       = [("val", "-")] ++ df_columns df_cell_cmp
       /\ incl ["val"] (df_columns old_a).
Proof.
  split; [reflexivity |]. split; [reflexivity |].
  destruct (reference_columns_are_prepended
              by_id_ref_val old_a new_b (r := diff_a_b_ref)
              (ref_col := "val") (ref_cols := [])
              eq_refl eq_refl eq_refl eq_refl eq_refl)
    as (c & _ & Hcols & _ & Hincl).
  exists c. split; [exact Hcols | exact Hincl].
Defined.

(** C4 as worded fails: with [val] as reference column and a change in
    [val] only, the row is in [changed] and [val] has its old/new pair. *)
Lemma reference_column_is_diffed :
  ~ reference_columns_never_diffed by_id_ref_val old_a new_b.
Proof.
  intros H.
  destruct (H ["val"] diff_a_b_ref eq_refl eq_refl "val") as [Hold _].
  - now left.
  - apply Hold. simpl. right. now left.
Qed.

(** ** The workbooks as state *)

Section Workbooks.

Lemma lookup_store_same (s : string) (v v' : DataFrame string) (wb : workbook) :
  lookup s wb = Some v -> lookup s (store s v' wb) = Some v'.
Proof.
  induction wb as [| [n df] wb IH]; simpl; [discriminate |].
  destruct (String.eqb n s) eqn:E; simpl; rewrite E; [reflexivity | exact IH].
Qed.

Lemma lookup_store_other (s x : string) (v : DataFrame string) (wb : workbook) :
  x <> s -> lookup x (store s v wb) = lookup x wb.
Proof.
  intros Hne. induction wb as [| [n df] wb IH]; simpl; [reflexivity |].
  destruct (String.eqb n s) eqn:E; simpl.
  - apply String.eqb_eq in E. subst n.
    destruct (String.eqb s x) eqn:E2; [| exact IH].
    apply String.eqb_eq in E2. congruence.
  - now rewrite IH.
Qed.

Lemma store_store (s : string) (v v' : DataFrame string) (wb : workbook) :
  store s v (store s v' wb) = store s v wb.
Proof.
  unfold store. rewrite map_map. apply map_ext. intros [n df]. simpl.
  destruct (String.eqb n s) eqn:E; simpl; now rewrite E.
Qed.

Lemma store_names (s : string) (v : DataFrame string) (wb : workbook) :
  map fst (store s v wb) = map fst wb.
Proof.
  unfold store. rewrite map_map. apply map_ext. intros [n df]. simpl.
  now destruct (String.eqb n s).
Qed.

Lemma lookup_None (s : string) (wb : workbook) :
  lookup s wb = None <-> ~ In s (map fst wb).
Proof.
  induction wb as [| [n df] wb IH]; simpl; [tauto |].
  destruct (String.eqb n s) eqn:E.
  - apply String.eqb_eq in E. split; [discriminate | tauto].
  - apply String.eqb_neq in E. rewrite IH. tauto.
Qed.

Lemma lookup_In (s : string) (df : DataFrame string) (wb : workbook) :
  lookup s wb = Some df -> In (s, df) wb.
Proof.
  induction wb as [| [n d] wb IH]; simpl; [discriminate |].
  destruct (String.eqb n s) eqn:E.
  - apply String.eqb_eq in E. intros H. injection H as <-. subst. now left.
  - intros H. right. now apply IH.
Qed.

(** The sheet comparison reads the configuration of [self] only. *)
Lemma key_frame_config (a b : t) (df : DataFrame string) :
  config a = config b -> key_frame a df = key_frame b df.
Proof.
  unfold config, key_frame. intros H. injection H as H1 _ _ _ _. now rewrite H1.
Qed.

Lemma get_sheet_diff_config (a b : t) (o n : DataFrame string) :
  config a = config b -> get_sheet_diff a o n = get_sheet_diff b o n.
Proof.
  unfold config. intros H. injection H as H1 H2 H3 H4 H5.
  unfold get_sheet_diff, delete_ignored_and_conflicting_cols, diff_reconciled,
    cell_cmp, add_ref_cols.
  now rewrite H1, H2, H3, H4, H5.
Qed.

Lemma set_key_step (s : string) (self : t) :
  set_key s self
  = match lookup s (old_excel self) with
    | None => (self, Raise (KeyError (Str s)))
    | Some o =>
        match key_frame self o with
        | Raise e => (self, Raise e)
        | Ok o1 =>
            let self1 := with_old (store s o1 (old_excel self)) self in
            match lookup s (new_excel self) with
            | None => (self1, Raise (KeyError (Str s)))
            | Some n =>
                match key_frame self n with
                | Raise e => (self1, Raise e)
                | Ok n1 => (with_new (store s n1 (new_excel self)) self1, Ok tt)
                end
            end
        end
    end.
Proof.
  unfold set_key, key_frame, bind, old_sheet, new_sheet, put_old, put_new, lift.
  destruct (String.eqb (index_name self) "_index_");
    destruct (lookup s (old_excel self)) as [o |]; try reflexivity.
  - cbv zeta. cbn [new_excel with_old index_name].
    now destruct (lookup s (new_excel self)).
  - destruct (set_index (index_name self) o) as [o1 | e]; [| reflexivity].
    cbv zeta. cbn [new_excel with_old index_name].
    destruct (lookup s (new_excel self)) as [n |]; [| reflexivity].
    now destruct (set_index (index_name self) n).
Qed.

Lemma compare_sheet_step (s : string) (self : t) :
  compare_sheet s self = sheet_step s self.
Proof.
  unfold compare_sheet, sheet_step, bind. rewrite set_key_step.
  destruct (lookup s (old_excel self)) as [o |] eqn:Eo; [| reflexivity].
  destruct (key_frame self o) as [o1 | e]; [| reflexivity]. cbv zeta.
  destruct (lookup s (new_excel self)) as [n |] eqn:En; [| reflexivity].
  destruct (key_frame self n) as [n1 | e]; [| reflexivity].
  set (self2 := with_new (store s n1 (new_excel self))
                  (with_old (store s o1 (old_excel self)) self)).
  assert (Ho : lookup s (old_excel self2) = Some o1)
    by (apply lookup_store_same with o; exact Eo).
  assert (Hn : lookup s (new_excel self2) = Some n1)
    by (apply lookup_store_same with n; exact En).
  unfold old_sheet, new_sheet. rewrite Ho, Hn.
  rewrite (@get_sheet_diff_config self2 self o1 n1 eq_refl).
  destruct (get_sheet_diff self o1 n1) as [[o2 n2] r].
  unfold put_old, put_new, lift, self2, with_old, with_new.
  cbn [fst snd old_excel new_excel index_name other_ref_cols ignored_cols
       old_stem new_stem].
  now rewrite !store_store.
Qed.

End Workbooks.

(** ** The loop over the sheets *)

Section Sheets.

(** Whatever a turn of the loop does, it keeps the configuration and the
    sheet names, and touches the frames of its own sheet only. *)
Lemma sheet_step_frame (s : string) (self : t) :
  let self' := fst (sheet_step s self) in
  config self' = config self
  /\ map fst (old_excel self') = map fst (old_excel self)
  /\ map fst (new_excel self') = map fst (new_excel self)
  /\ forall x, x <> s ->
       lookup x (old_excel self') = lookup x (old_excel self)
       /\ lookup x (new_excel self') = lookup x (new_excel self).
Proof.
  unfold sheet_step.
  destruct (lookup s (old_excel self)) as [o |]; [| now repeat split].
  destruct (key_frame self o) as [o1 | e]; [| now repeat split].
  cbv zeta.
  destruct (lookup s (new_excel self)) as [n |].
  - destruct (key_frame self n) as [n1 | e]; cbn [fst]; unfold with_old, with_new;
      cbn [old_excel new_excel]; rewrite ?store_names;
      (split; [reflexivity |]); (split; [reflexivity |]);
      (split; [reflexivity |]); intros x Hx;
      rewrite ?lookup_store_other by exact Hx; now split.
  - cbn [fst]; unfold with_old; cbn [old_excel new_excel];
      rewrite ?store_names;
      (split; [reflexivity |]); (split; [reflexivity |]);
      (split; [reflexivity |]); intros x Hx;
      rewrite ?lookup_store_other by exact Hx; now split.
Qed.

Lemma sheet_step_ok (s : string) (self self' : t) (d : sheet_diff) :
  sheet_step s self = (self', Ok d) -> compared_by_name self s d self'.
Proof.
  unfold sheet_step, compared_by_name.
  destruct (lookup s (old_excel self)) as [o |] eqn:Eo; [| discriminate].
  destruct (key_frame self o) as [o1 | e] eqn:Ko; [| discriminate].
  cbv zeta.
  destruct (lookup s (new_excel self)) as [n |] eqn:En; [| discriminate].
  destruct (key_frame self n) as [n1 | e] eqn:Kn; [| discriminate].
  intros H. injection H as <- Hd.
  exists o, n, o1, n1. rewrite get_sheet_diff_eq in *. cbn [fst snd] in *.
  repeat (split; [first [reflexivity | assumption] |]).
  split; [apply lookup_store_same with o | apply lookup_store_same with n];
    assumption.
Qed.

Lemma sheet_step_missing (s : string) (self : t) :
  lookup s (new_excel self) = None ->
  exists e, snd (sheet_step s self) = Raise e.
Proof.
  intros H. unfold sheet_step. rewrite H.
  destruct (lookup s (old_excel self)) as [o |]; [| simpl; eauto].
  destruct (key_frame self o); simpl; eauto.
Qed.

Lemma compare_sheets_cons (s : string) (rest : list string)
    (acc : list (string * sheet_diff)) (self : t) :
  compare_sheets (s :: rest) acc self
  = match sheet_step s self with
    | (self1, Ok d) => compare_sheets rest (acc ++ [(s, d)]) self1
    | (self1, Raise e) => (self1, Raise e)
    end.
Proof.
  simpl. unfold bind. now rewrite compare_sheet_step.
Qed.

Lemma compare_sheets_frame (names : list string)
    (acc : list (string * sheet_diff)) (self : t) :
  let self' := fst (compare_sheets names acc self) in
  config self' = config self
  /\ map fst (old_excel self') = map fst (old_excel self)
  /\ map fst (new_excel self') = map fst (new_excel self)
  /\ forall x, ~ In x names ->
       lookup x (old_excel self') = lookup x (old_excel self)
       /\ lookup x (new_excel self') = lookup x (new_excel self).
Proof.
  revert acc self. induction names as [| s rest IH]; intros acc self.
  - simpl. now repeat split.
  - rewrite compare_sheets_cons.
    destruct (sheet_step_frame s self) as (C1 & O1 & N1 & F1).
    destruct (sheet_step s self) as [self1 [d | e]]; cbn [fst] in *.
    + destruct (IH (acc ++ [(s, d)]) self1) as (C2 & O2 & N2 & F2).
      cbv zeta. rewrite C2, O2, N2.
      repeat (split; [assumption |]).
      intros x Hx. destruct (F2 x) as [A B]; [intros K; apply Hx; now right |].
      destruct (F1 x) as [A' B']; [intros K; apply Hx; now left |].
      split; congruence.
    + repeat (split; [assumption |]).
      intros x Hx. apply F1. intros K. apply Hx. now left.
Qed.

(** When the loop returns, it returns one entry per name, in order, each
    the comparison of the two sheets of that name. *)
Lemma compare_sheets_ok (names : list string)
    (acc r : list (string * sheet_diff)) (self self' : t) :
  NoDup names ->
  compare_sheets names acc self = (self', Ok r) ->
  exists ds, r = acc ++ ds /\ map fst ds = names
             /\ forall s d, In (s, d) ds -> compared_by_name self s d self'.
Proof.
  revert acc self. induction names as [| s rest IH]; intros acc self Hnd H.
  - simpl in H. injection H as <- <-. exists []. rewrite app_nil_r.
    repeat split. intros s d [].
  - rewrite compare_sheets_cons in H.
    destruct (sheet_step_frame s self) as (C1 & _ & _ & F1).
    destruct (sheet_step s self) as [self1 [d0 | e]] eqn:Es; cbn [fst] in *;
      [| discriminate].
    inversion Hnd as [| ? ? Hs Hrest]; subst.
    destruct (IH _ _ Hrest H) as (ds & -> & Hnames & Hds).
    destruct (compare_sheets_frame rest (acc ++ [(s, d0)]) self1)
      as (_ & _ & _ & F2).
    rewrite H in F2. cbn [fst] in F2.
    exists ((s, d0) :: ds). rewrite <- app_assoc. split; [reflexivity |].
    split; [simpl; now rewrite Hnames |].
    intros s' d' [Heq | Hin].
    + injection Heq as <- <-.
      destruct (sheet_step_ok _ _ Es) as (o & n & o1 & n1 & A & B & C & D & E & F & G).
      exists o, n, o1, n1. destruct (F2 s Hs) as [F2o F2n].
      repeat (split; [assumption |]). split; congruence.
    + assert (Hs' : s' <> s).
      { intros ->. apply Hs. rewrite <- Hnames.
        apply in_map_iff. now exists (s, d'). }
      destruct (Hds _ _ Hin) as (o & n & o1 & n1 & A & B & C & D & E & F & G).
      destruct (F1 s' Hs') as [F1o F1n].
      exists o, n, o1, n1.
      rewrite (key_frame_config _ C1) in C.
      rewrite (key_frame_config _ C1) in D.
      rewrite (get_sheet_diff_config _ _ C1) in E.
      assert (Hdel : delete_ignored_and_conflicting_cols self1 o1 n1
                     = delete_ignored_and_conflicting_cols self o1 n1).
      { pose proof (get_sheet_diff_config o1 n1 C1) as K.
        rewrite !get_sheet_diff_eq in K. exact (f_equal fst K). }
      rewrite Hdel in F, G.
      repeat (split; [first [assumption | congruence] |]). assumption.
Qed.

Lemma compare_sheets_missing (names : list string)
    (acc : list (string * sheet_diff)) (self : t) (s : string) :
  In s names -> lookup s (new_excel self) = None ->
  exists e, snd (compare_sheets names acc self) = Raise e.
Proof.
  revert acc self. induction names as [| s0 rest IH]; intros acc self Hin Hno;
    [destruct Hin |].
  rewrite compare_sheets_cons.
  destruct (sheet_step_frame s0 self) as (_ & _ & N1 & _).
  destruct (sheet_step s0 self) as [self1 [d | e]] eqn:Es; cbn [fst] in *;
    [| simpl; eauto].
  destruct Hin as [-> | Hin].
  - destruct (sheet_step_missing s self Hno) as [e He].
    rewrite Es in He. discriminate.
  - apply IH; [exact Hin |]. apply lookup_None. rewrite N1.
    now apply lookup_None.
Qed.

End Sheets.

(** C1, as amended.  Sheets are paired by name: when [get_excel_diff]
    returns, it returns one entry per sheet of the old workbook, in the
    order of the old workbook, each the comparison of that sheet with the
    sheet of the new workbook that has the same name; sheets of the new
    workbook under other names are left as they are; and when a sheet of the
    old workbook has no namesake in the new one, [get_excel_diff] raises
    instead of returning. *)
Theorem sheets_are_paired_by_name (self : t) :
  NoDup (map fst (old_excel self)) ->
  (forall self' r,
     get_excel_diff self = (self', Ok r) ->
     map fst r = map fst (old_excel self)
     /\ forall s d, In (s, d) r ->
          exists o n o1 n1,
            lookup s (old_excel self) = Some o
            /\ lookup s (new_excel self) = Some n
            /\ key_frame self o = Ok o1
            /\ key_frame self n = Ok n1
            /\ snd (get_sheet_diff self o1 n1) = Ok d)
  /\ (forall x, ~ In x (map fst (old_excel self)) ->
                lookup x (new_excel (fst (get_excel_diff self)))
                = lookup x (new_excel self))
  /\ (forall s, In s (map fst (old_excel self)) ->
                lookup s (new_excel self) = None ->
                exists e, snd (get_excel_diff self) = Raise e).
Proof.
  intros Hnd. split.
  - intros self' r H. unfold get_excel_diff in H.
    destruct (@compare_sheets_ok _ _ _ _ _ Hnd H) as (ds & -> & Hnames & Hds).
    simpl. split; [exact Hnames |].
    intros s d Hin.
    destruct (Hds _ _ Hin) as (o & n & o1 & n1 & A & B & C & D & E & _).
    now exists o, n, o1, n1.
  - split.
    + intros x Hx. unfold get_excel_diff.
      destruct (compare_sheets_frame (map fst (old_excel self)) [] self)
        as (_ & _ & _ & F).
      now apply F.
    + intros s Hin Hno. unfold get_excel_diff.
      now apply compare_sheets_missing with s.
Qed.

Lemma sheets_are_paired_by_name_witness :
  NoDup (map fst book_A_B)
  /\ snd (get_excel_diff (session None book_A_B book_B_A)) = Ok diffs_A_B
  /\ map fst diffs_A_B = ["A"; "B"].
Proof.
  assert (N : NoDup (map fst book_A_B)).
  { simpl. repeat constructor; simpl; intros H;
      repeat (destruct H as [H | H]; try discriminate); exact H. }
  split; [exact N |]. split; [reflexivity |].
  exact (proj1 (proj1 (sheets_are_paired_by_name
                         (session None book_A_B book_B_A) N)
                      (fst (get_excel_diff (session None book_A_B book_B_A)))
                      diffs_A_B eq_refl)).
Defined.

(** C1 as worded fails: with the same sheets in another order the first
    sheet of the old workbook is compared with its namesake, not with the
    first sheet of the new workbook; and with a shorter new workbook the
    call raises where pairing by position would stop at the shorter. *)
Lemma sheets_are_not_paired_by_position :
  ~ pairs_sheets_by_position (session None book_A_B book_B_A)
  /\ ~ pairs_sheets_by_position (session None book_A_B book_A).
Proof.
  split; intros H; vm_compute in H; discriminate.
Qed.

(** ** The workbooks after a call *)

Section SecondCall.



Lemma set_index_raises (name : string) (df : DataFrame string) :
  ~ In name (df_columns df) ->
  set_index name df = Raise (KeyError (Str name)).
Proof.
  intros H. unfold set_index. apply index_of_None in H. now rewrite H.
Qed.

Variable name : string.
Hypothesis explicit_key : String.eqb name "_index_" = false.

Lemma key_frame_explicit (self : t) (df : DataFrame string) :
  index_name self = name -> key_frame self df = set_index name df.
Proof. unfold key_frame. intros ->. now rewrite explicit_key. Qed.





End SecondCall.



(** * Further properties of the sheet comparison *)

(** ** The columns of the result *)

Section ResultColumns.

Lemma select_incl {A} (mask : list bool) (l : list A) (x : A) :
  In x (select mask l) -> In x l.
Proof.
  unfold select. intros H. apply in_map_iff in H.
  destruct H as ([b y] & <- & H). apply filter_In in H.
  destruct H as [H _]. eapply in_combine_r, H.
Qed.

Lemma loc_columns {L} (labels : list cell) (df x : DataFrame L) :
  loc labels df = Ok x ->
  df_columns x = df_columns df /\ df_index_name x = df_index_name df.
Proof.
  unfold loc. destruct (loc_rows labels (df_rows df)); cbn [rbind];
    [| discriminate].
  intros H. injection H as <-. now split.
Qed.

Lemma compare_columns (na nb : string) (a b : DataFrame string)
    (c : DataFrame (string * string)) (col level : string) :
  compare na nb a b = Ok c -> In (col, level) (df_columns c) ->
  In col (df_columns a).
Proof.
  unfold compare.
  destruct (list_eqb String.eqb (df_columns a) (df_columns b)
            && list_eqb cell_eqb (df_index a) (df_index b)); [| discriminate].
  intros H. injection H as <-. cbn [df_columns]. intros Hin.
  apply in_flat_map in Hin. destruct Hin as (x & Hx & Hin).
  apply select_incl in Hx.
  destruct Hin as [Hin | [Hin | []]]; injection Hin as <- _; exact Hx.
Qed.

Lemma cell_cmp_columns (self : t) (a b : DataFrame string)
    (c : DataFrame (string * string)) (col level : string) :
  cell_cmp self a b = Ok c -> In (col, level) (df_columns c) ->
  In col (df_columns a).
Proof.
  unfold cell_cmp.
  destruct (compare (old_stem self) (new_stem self) a b) as [d | e] eqn:E.
  - intros H. injection H as <-. cbn [fillna df_columns].
    now apply compare_columns with (1 := E).
  - destruct e; discriminate.
Qed.

Lemma add_ref_cols_columns (self : t) (x : DataFrame string)
    (c c' : DataFrame (string * string)) (col level : string) :
  add_ref_cols self x c = Ok c' -> In (col, level) (df_columns c') ->
  In (col, level) (df_columns c) \/ In col (df_columns x).
Proof.
  unfold add_ref_cols.
  destruct (other_ref_cols self) as [[| c0 cs] |];
    try (intros H; injection H as <-; now left).
  destruct (negb (df_empty c)); [| intros H; injection H as <-; now left].
  unfold loc2.
  destruct (loc_rows (df_index c) (df_rows x)) as [rs | e]; cbn [rbind];
    [| discriminate].
  destruct (positions (c0 :: cs) (df_columns x)) as [ps | e] eqn:Hps;
    cbn [rbind]; [| discriminate].
  destruct (@positions_inv _ _ _ Hps) as [Hincl _].
  unfold concat_columns.
  match goal with |- context [if ?b then _ else _] => destruct b end;
    [| discriminate].
  intros H. injection H as <-. intros Hin.
  change (In (col, level)
             (map (fun ref_col : string => (ref_col, "-")) (c0 :: cs)
              ++ df_columns c)) in Hin.
  apply in_app_or in Hin. destruct Hin as [Hin | Hin]; [right | now left].
  apply in_map_iff in Hin. destruct Hin as (y & Hy & Hin).
  injection Hy as <- _. now apply Hincl.
Qed.

(** A column that survives reconciliation is in both frames and not
    ignored. *)
Lemma reconciliation_columns_kept (self : t) (df1 df2 : DataFrame string) :
  let p := delete_ignored_and_conflicting_cols self df1 df2 in
  (forall c, In c (df_columns (fst p)) ->
             ~ In c (ignored_cols self)
             /\ In c (df_columns df1) /\ In c (df_columns df2))
  /\ (forall c, In c (df_columns (snd p)) ->
                ~ In c (ignored_cols self)
                /\ In c (df_columns df1) /\ In c (df_columns df2)).
Proof.
  destruct (reconciled_columns self df1 df2) as [H1 H2]. cbv zeta.
  rewrite H1, H2.
  split; intros c Hc; apply filter_In in Hc; destruct Hc as [Hc Hd];
    apply negb_true_iff, mem_false in Hd;
    rewrite In_union, In_symmetric_difference in Hd;
    destruct (in_dec string_dec c (df_columns df1));
    destruct (in_dec string_dec c (df_columns df2)); tauto.
Qed.

(** What a returned comparison is made of. *)
Lemma diff_reconciled_inv (self : t) (o n : DataFrame string) (r : sheet_diff) :
  diff_reconciled self o n = Ok r ->
  exists m ob nb c,
    merge o n (index_name self) = Ok m
    /\ loc (index_where both m) o = Ok ob
    /\ loc (index_where both m) n = Ok nb
    /\ cell_cmp self ob nb = Ok c
    /\ add_ref_cols self ob c = Ok (changed r)
    /\ loc (index_where right_only m) n = Ok (added r)
    /\ loc (index_where left_only m) o = Ok (deleted r).
Proof.
  unfold diff_reconciled.
  destruct (merge o n (index_name self)) as [m | e] eqn:E1; cbn [rbind];
    [| discriminate].
  destruct (loc (index_where both m) o) as [ob | e] eqn:E2; cbn [rbind];
    [| discriminate].
  destruct (loc (index_where both m) n) as [nb | e] eqn:E3; cbn [rbind];
    [| discriminate].
  destruct (cell_cmp self ob nb) as [c | e] eqn:E4; cbn [rbind];
    [| discriminate].
  destruct (add_ref_cols self ob c) as [c' | e] eqn:E5; cbn [rbind];
    [| discriminate].
  destruct (loc (index_where right_only m) n) as [a | e] eqn:E6; cbn [rbind];
    [| discriminate].
  destruct (loc (index_where left_only m) o) as [d | e] eqn:E7; cbn [rbind];
    [| discriminate].
  intros H. injection H as <-. exists m, ob, nb, c. cbn [changed added deleted].
  repeat (split; [first [reflexivity | assumption] |]). assumption.
Qed.

End ResultColumns.

(** X1.  After [set_ignored_cols cols], no column of [cols] shows in a
    result: every column of [added] and [deleted], and every column
    that [changed] shows (as reference column or as old/new pair), is
    a column of both input frames that is not in [cols]. *)
Theorem ignored_columns_never_reach_the_result
    (self : t) (cols : list string) (df_old df_new : DataFrame string)
    (r : sheet_diff) :
  snd (get_sheet_diff (set_ignored_cols cols self) df_old df_new) = Ok r ->
  forall c,
    In c (df_columns (added r)) \/ In c (df_columns (deleted r))
    \/ (exists level, In (c, level) (df_columns (changed r))) ->
    ~ In c cols /\ In c (df_columns df_old) /\ In c (df_columns df_new).
Proof.
  rewrite get_sheet_diff_eq. cbn [snd]. intros Hr c Hc.
  set (self' := set_ignored_cols cols self) in *.
  destruct (reconciliation_columns_kept self' df_old df_new) as [K1 K2].
  set (o := fst (delete_ignored_and_conflicting_cols self' df_old df_new)) in *.
  set (n := snd (delete_ignored_and_conflicting_cols self' df_old df_new)) in *.
  destruct (diff_reconciled_inv _ _ _ Hr)
    as (m & ob & nb & x & _ & Hob & _ & Hx & Hch & Ha & Hd).
  destruct (loc_columns _ _ Hob) as [Cob _].
  destruct (loc_columns _ _ Ha) as [Ca _].
  destruct (loc_columns _ _ Hd) as [Cd _].
  assert (Hin : In c (df_columns o) \/ In c (df_columns n)).
  { destruct Hc as [Hc | [Hc | [level Hc]]].
    - right. now rewrite <- Ca.
    - left. now rewrite <- Cd.
    - left. rewrite <- Cob.
      destruct (add_ref_cols_columns _ _ _ _ _ Hch Hc) as [Hc' | Hc'];
        [| exact Hc'].
      now apply cell_cmp_columns with (1 := Hx) (level := level). }
  destruct Hin as [Hin | Hin]; [apply K1 in Hin | apply K2 in Hin]; tauto.
Qed.

Lemma ignored_columns_never_reach_the_result_witness :
  snd (get_sheet_diff (set_ignored_cols ["notes"] by_id) old_notes new_notes)
  = Ok no_diff
  /\ ~ In "val" ["notes"] /\ In "val" (df_columns old_notes)
  /\ In "val" (df_columns new_notes).
Proof.
  split; [reflexivity |].
  apply (ignored_columns_never_reach_the_result
           by_id ["notes"] old_notes new_notes (r := no_diff) eq_refl "val").
  left. simpl. now left.
Defined.

(** ** When the comparison returns and when it raises *)

Section Outcome.

Lemma cell_cmp_index (self : t) (a b : DataFrame string)
    (c : DataFrame (string * string)) :
  cell_cmp self a b = Ok c -> incl (df_index c) (df_index a).
Proof.
  intros H k Hk.
  destruct (cell_cmp_cases self a b) as [(_ & _ & d & Hd & Hc) | [_ Hc]];
    rewrite Hc in H; [| discriminate].
  injection H as <-. unfold df_index in Hk. apply in_map_iff in Hk.
  destruct Hk as (x & <- & Hx).
  destruct (@fillna_rows _ _ _ _ Hx) as (y & Hy & <-).
  destruct (@compare_row_source _ _ _ _ _ _ Hd Hy) as (ra & _ & Ha & _ & <- & _).
  unfold df_index. now apply in_map.
Qed.


Lemma positions_missing (names cols : list string) (c : string) :
  In c names -> ~ In c cols ->
  exists c', In c' names /\ positions names cols = Raise (KeyError (Str c')).
Proof.
  induction names as [| d ds IH]; intros Hin Hout; [destruct Hin |]. simpl.
  destruct (index_of d cols) as [i |] eqn:E.
  - destruct Hin as [-> | Hin].
    + exfalso. apply Hout. eapply nth_error_In, index_of_Some, E.
    + destruct (IH Hin Hout) as (c' & Hc' & ->). exists c'. split; [now right |].
      reflexivity.
  - exists d. split; [now left | reflexivity].
Qed.


Lemma NoDup_count (l : list cell) : NoDup l <-> forall k, count k l <= 1.
Proof. apply NoDup_count_occ. Qed.

Lemma NoDup_count_one (l : list cell) (k : cell) :
  NoDup l -> In k l -> count k l = 1.
Proof.
  intros Hnd Hin. pose proof (proj1 (NoDup_count l) Hnd k) as Hk.
  apply count_In in Hin. lia.
Qed.




End Outcome.





(** X4.  A reference column that reconciliation removed (an ignored
    column, or a column of one frame only) makes the comparison raise
    [KeyError] as soon as one row changed; while nothing changed the
    reference columns are not read and the comparison returns what it
    returns without them. *)
Theorem dropped_reference_column_raises_once_a_row_changed
    (self : t) (df_old df_new : DataFrame string) (r0 : sheet_diff)
    (refs : list string) (c : string) :
  df_index_name df_old = Some (index_name self) ->
  df_index_name df_new = Some (index_name self) ->
  other_ref_cols self = Some refs ->
  In c refs ->
  ~ In c (df_columns (fst (fst (get_sheet_diff self df_old df_new)))) ->
  snd (get_sheet_diff (without_refs self) df_old df_new) = Ok r0 ->
  (df_empty (changed r0) = true ->
   snd (get_sheet_diff self df_old df_new) = Ok r0)
  /\ (df_empty (changed r0) = false ->
      exists c', In c' refs
                 /\ snd (get_sheet_diff self df_old df_new)
                    = Raise (KeyError (Str c'))).
Proof.
  intros Ho Hn Hrefs Hc. rewrite !get_sheet_diff_eq. cbn [fst snd].
  change (delete_ignored_and_conflicting_cols (without_refs self) df_old df_new)
    with (delete_ignored_and_conflicting_cols self df_old df_new).
  destruct (reconciled_index self df_old df_new) as (Io & In_ & No & Nn).
  set (o := fst (delete_ignored_and_conflicting_cols self df_old df_new)) in *.
  set (n := snd (delete_ignored_and_conflicting_cols self df_old df_new)) in *.
  rewrite Ho in No. rewrite Hn in Nn. intros Hgone Hr0.
  destruct (diff_reconciled_merged _ _ _ Hr0) as [m Hm].
  rewrite (diff_reconciled_eq (without_refs self) o n No Nn Hm) in Hr0.
  rewrite (diff_reconciled_eq self o n No Nn Hm).
  change (cell_cmp (without_refs self)) with (cell_cmp self) in Hr0.
  set (X := rows_of (in_both o n) o) in *.
  destruct (cell_cmp self X (rows_of (in_both o n) n)) as [x | e] eqn:Hx;
    cbn [rbind] in *; [| discriminate].
  change (add_ref_cols (without_refs self) X x) with (Ok x) in Hr0.
  cbn [rbind] in Hr0. injection Hr0 as <-. cbn [changed].
  split; intros Hemp.
  - now rewrite (add_ref_cols_empty self X x Hemp).
  - destruct (positions_missing refs (df_columns X) c Hc Hgone) as (c' & Hc' & Hps).
    exists c'. split; [exact Hc' |].
    unfold add_ref_cols. rewrite Hrefs, Hemp.
    destruct refs as [| c0 cs]; [destruct Hc |]. cbn [negb].
    unfold loc2.
    rewrite (loc_rows_ok _ (cell_cmp_index _ _ _ Hx)). cbn [rbind].
    rewrite Hps. reflexivity.
Qed.

Lemma dropped_reference_column_raises_once_a_row_changed_witness :
  snd (get_sheet_diff (without_refs by_id_ref_label) old_labelled new_b)
  = Ok diff_a_b
  /\ exists c', In c' ["label"]
                /\ snd (get_sheet_diff by_id_ref_label old_labelled new_b)
                   = Raise (KeyError (Str c')).
Proof.
  split; [reflexivity |].
  apply (proj2 (dropped_reference_column_raises_once_a_row_changed
                  by_id_ref_label old_labelled new_b (r0 := diff_a_b)
                  (refs := ["label"]) "label"
                  eq_refl eq_refl eq_refl (or_introl eq_refl)
                  ltac:(simpl; intros [H | []]; discriminate) eq_refl)).
  reflexivity.
Defined.

(** X5.  When the keys of the new frame are all different, [added] holds
    each row of a key that is only in the new frame exactly once, and no
    two rows of [added] share a key; the same for the old frame and
    [deleted]. *)
Theorem unique_keys_give_each_unmatched_row_once
    (self : t) (df_old df_new : DataFrame string) (r : sheet_diff) :
  df_index_name df_old = Some (index_name self) ->
  df_index_name df_new = Some (index_name self) ->
  snd (get_sheet_diff self df_old df_new) = Ok r ->
  let df_old' := fst (fst (get_sheet_diff self df_old df_new)) in
  let df_new' := snd (fst (get_sheet_diff self df_old df_new)) in
  (NoDup (df_index df_new) ->
   NoDup (df_index (added r))
   /\ forall k, ~ In k (df_index df_old) ->
                rows_at k (df_rows (added r)) = rows_at k (df_rows df_new'))
  /\ (NoDup (df_index df_old) ->
      NoDup (df_index (deleted r))
      /\ forall k, ~ In k (df_index df_new) ->
                   rows_at k (df_rows (deleted r)) = rows_at k (df_rows df_old')).
Proof.
  intros Ho Hn. rewrite get_sheet_diff_eq. cbn [fst snd]. intros Hr.
  destruct (reconciled_index self df_old df_new) as (Io & In_ & No & Nn).
  set (o := fst (delete_ignored_and_conflicting_cols self df_old df_new)) in *.
  set (n := snd (delete_ignored_and_conflicting_cols self df_old df_new)) in *.
  rewrite Ho in No. rewrite Hn in Nn. rewrite <- Io, <- In_.
  destruct (diff_reconciled_merged _ _ _ Hr) as [m Hm].
  rewrite (diff_reconciled_eq _ _ _ No Nn Hm) in Hr.
  destruct (cell_cmp self _ _) as [c | e]; cbn [rbind] in Hr; [| discriminate].
  destruct (add_ref_cols self _ c) as [c' | e]; cbn [rbind] in Hr;
    [| discriminate].
  injection Hr as <-. cbn [added deleted].
  split; intros Hnd; split.
  - apply NoDup_count. intros k. rewrite count_rows_of.
    pose proof (proj1 (NoDup_count _) Hnd k) as Hk.
    unfold in_new_only. rewrite count_index_where. unfold mult, tag_of.
    destruct (count k (df_index o)), (count k (df_index n)); simpl; lia.
  - intros k Hk. rewrite rows_at_rows_of, (@count_in_new_only o n k Hk).
    destruct (in_dec cell_eq_dec k (df_index n)) as [Hin | Hout].
    + rewrite (@NoDup_count_one _ k Hnd Hin). simpl. apply app_nil_r.
    + rewrite (proj1 (count_zero _ _) Hout). simpl. symmetry.
      now apply rows_at_nil.
  - apply NoDup_count. intros k. rewrite count_rows_of.
    pose proof (proj1 (NoDup_count _) Hnd k) as Hk.
    unfold in_old_only. rewrite count_index_where. unfold mult, tag_of.
    destruct (count k (df_index o)), (count k (df_index n)); simpl; lia.
  - intros k Hk. rewrite rows_at_rows_of, (@count_in_old_only o n k Hk).
    destruct (in_dec cell_eq_dec k (df_index o)) as [Hin | Hout].
    + rewrite (@NoDup_count_one _ k Hnd Hin). simpl. apply app_nil_r.
    + rewrite (proj1 (count_zero _ _) Hout). simpl. symmetry.
      now apply rows_at_nil.
Qed.

Lemma unique_keys_give_each_unmatched_row_once_witness :
  snd (get_sheet_diff by_id old_1_2 new_1_3) = Ok diff_1_2_3
  /\ NoDup (df_index new_1_3)
  /\ NoDup (df_index (added diff_1_2_3)).
Proof.
  assert (N : NoDup (df_index new_1_3)).
  { simpl. repeat constructor; simpl; intros H;
      repeat (destruct H as [H | H]; try discriminate); exact H. }
  split; [reflexivity |]. split; [exact N |].
  exact (proj1 (proj1 (unique_keys_give_each_unmatched_row_once
                         by_id old_1_2 new_1_3 eq_refl eq_refl eq_refl) N)).
Defined.

(** ** Reconciling twice *)

Section Idempotence.

Lemma select_length_le {A B} (mask : list bool) (l : list A) (l' : list B) :
  List.length mask = List.length l' ->
  List.length (select mask l) <= List.length (select mask l').
Proof.
  unfold select. revert l l'.
  induction mask as [| b mask IH]; intros l [| y l'] H; simpl in *;
    try discriminate; [lia |].
  destruct l as [| x l]; simpl; [lia |].
  injection H as H. specialize (IH l l' H).
  destruct b; simpl; lia.
Qed.

Lemma select_all_true {A} (mask : list bool) (l : list A) :
  Forall (fun b => b = true) mask -> List.length l <= List.length mask ->
  select mask l = l.
Proof.
  unfold select. intros H. revert l.
  induction H as [| b mask Hb _ IH]; intros [| x l] Hlen; simpl in *;
    try reflexivity; try lia.
  subst b. simpl. f_equal. apply IH. lia.
Qed.

(** Dropping labels a frame does not carry leaves it as it is, when no
    row is longer than the column list. *)
Lemma drop_nothing (labels : list string) (df : DataFrame string) :
  (forall c, In c (df_columns df) -> ~ In c labels) ->
  (forall r, In r (df_rows df) ->
             List.length (snd r) <= List.length (df_columns df)) ->
  drop labels df = df.
Proof.
  intros Hc Hr. unfold drop. destruct df as [name cols rows]. simpl in *.
  assert (Hall : Forall (fun b => b = true)
                        (map (fun c => negb (mem c labels)) cols)).
  { apply Forall_forall. intros b Hb. apply in_map_iff in Hb.
    destruct Hb as (c & <- & Hin). apply negb_true_iff, mem_false.
    now apply Hc. }
  f_equal.
  - apply select_all_true; [exact Hall | now rewrite length_map].
  - rewrite <- (map_id rows) at 2. apply map_ext_in. intros [k vs] Hin.
    simpl. f_equal. apply select_all_true; [exact Hall |].
    rewrite length_map. now apply (Hr (k, vs)).
Qed.

Lemma drop_rows_fit (labels : list string) (df : DataFrame string) :
  forall r, In r (df_rows (drop labels df)) ->
            List.length (snd r) <= List.length (df_columns (drop labels df)).
Proof.
  unfold drop. simpl. intros r Hr. apply in_map_iff in Hr.
  destruct Hr as (x & <- & _). simpl.
  apply select_length_le. apply length_map.
Qed.

(** Frames that were reconciled are left as they are by a second
    reconciliation. *)
Lemma reconcile_twice (self : t) (df1 df2 : DataFrame string) :
  let p := delete_ignored_and_conflicting_cols self df1 df2 in
  delete_ignored_and_conflicting_cols self (fst p) (snd p) = p.
Proof.
  cbv zeta.
  destruct (reconciliation_columns_kept self df1 df2) as [K1 K2].
  destruct (reconciled_columns self df1 df2) as [E1 E2].
  assert (S12 : forall c,
             In c (df_columns (fst (delete_ignored_and_conflicting_cols self df1 df2)))
             <-> In c (df_columns (snd (delete_ignored_and_conflicting_cols self df1 df2)))).
  { intros c. rewrite E1, E2, !filter_In. split; intros [Hc Hd].
    - destruct (K1 c) as (_ & _ & H2); [rewrite E1; now apply filter_In |].
      now split.
    - destruct (K2 c) as (_ & H1 & _); [rewrite E2; now apply filter_In |].
      now split. }
  set (p := delete_ignored_and_conflicting_cols self df1 df2) in *.
  assert (Hfit : (forall r, In r (df_rows (fst p)) ->
                    List.length (snd r) <= List.length (df_columns (fst p)))
                 /\ (forall r, In r (df_rows (snd p)) ->
                       List.length (snd r) <= List.length (df_columns (snd p)))).
  { unfold p, delete_ignored_and_conflicting_cols. cbn [fst snd].
    split; apply drop_rows_fit. }
  destruct Hfit as [F1 F2].
  set (D := union (symmetric_difference (df_columns (fst p)) (df_columns (snd p)))
                  (ignored_cols self)).
  assert (D1 : drop (intersection (df_columns (fst p)) D) (fst p) = fst p).
  { apply drop_nothing; [| exact F1].
    intros c Hc Hin. unfold intersection in Hin. apply filter_In in Hin.
    destruct Hin as [_ Hin]. apply mem_In, In_union in Hin.
    rewrite In_symmetric_difference in Hin.
    destruct (K1 c Hc) as (Hi & _). pose proof (proj1 (S12 c) Hc). tauto. }
  assert (D2 : drop (intersection (df_columns (snd p)) D) (snd p) = snd p).
  { apply drop_nothing; [| exact F2].
    intros c Hc Hin. unfold intersection in Hin. apply filter_In in Hin.
    destruct Hin as [_ Hin]. apply mem_In, In_union in Hin.
    rewrite In_symmetric_difference in Hin.
    destruct (K2 c Hc) as (Hi & _). pose proof (proj2 (S12 c) Hc). tauto. }
  unfold delete_ignored_and_conflicting_cols at 1. cbv zeta. fold D.
  rewrite D1, D2. now destruct p.
Qed.

End Idempotence.

(** X6.  [get_sheet_diff] applied again to the two frames it left leaves
    them as they are and has the same outcome: a second reconciliation
    removes nothing more. *)
Theorem get_sheet_diff_again_is_the_same
    (self : t) (df_old df_new : DataFrame string) :
  let first := get_sheet_diff self df_old df_new in
  get_sheet_diff self (fst (fst first)) (snd (fst first)) = first.
Proof.
  cbv zeta. rewrite !get_sheet_diff_eq. cbn [fst snd].
  now rewrite reconcile_twice.
Qed.

(** * Further properties of the workbook comparison *)

Section Workbook.

Lemma store_absent (s : string) (v : DataFrame string) (wb : workbook) :
  ~ In s (map fst wb) -> store s v wb = wb.
Proof.
  unfold store. intros H. rewrite <- (map_id wb) at 2.
  apply map_ext_in. intros [n df] Hin. simpl.
  destruct (String.eqb n s) eqn:E; [| reflexivity].
  apply String.eqb_eq in E. subst n. exfalso. apply H.
  apply in_map_iff. now exists (s, df).
Qed.

Lemma store_same (s : string) (v : DataFrame string) (wb : workbook) :
  NoDup (map fst wb) -> lookup s wb = Some v -> store s v wb = wb.
Proof.
  induction wb as [| [n df] wb IH]; simpl; intros Hnd H; [reflexivity |].
  inversion Hnd as [| ? ? Hn Hrest]; subst.
  destruct (String.eqb n s) eqn:E.
  - apply String.eqb_eq in E. subst n. injection H as ->.
    f_equal. now apply store_absent.
  - f_equal. now apply IH.
Qed.

Lemma with_same (self : t) :
  with_new (new_excel self) (with_old (old_excel self) self) = self.
Proof. now destruct self. Qed.

Lemma set_names_same (name : string) (df : DataFrame string) :
  df_index_name df = Some name -> set_names name df = df.
Proof. destruct df. simpl. now intros ->. Qed.

Lemma config_index_name (a b : t) :
  config a = config b -> index_name a = index_name b.
Proof. unfold config. intros H. now injection H. Qed.

Lemma key_frame_by_position (self : t) (df : DataFrame string) :
  index_name self = "_index_" ->
  key_frame self df = Ok (set_names "_index_" df).
Proof. unfold key_frame. now intros ->. Qed.

(** When each turn of the loop leaves the object as it is, so does the
    loop, and it returns what the turns return. *)
Lemma compare_sheets_fixed (ds acc : list (string * sheet_diff)) (self : t) :
  (forall s d, In (s, d) ds -> sheet_step s self = (self, Ok d)) ->
  compare_sheets (map fst ds) acc self = (self, Ok (acc ++ ds)).
Proof.
  revert acc. induction ds as [| [s d] ds IH]; intros acc H.
  - simpl. now rewrite app_nil_r.
  - cbn [map fst]. rewrite compare_sheets_cons, (H s d) by now left.
    rewrite IH; [now rewrite <- app_assoc |].
    intros s' d' Hin. apply H. now right.
Qed.

End Workbook.

(** X7.  With the default key, the row position, [get_excel_diff] can be
    called again: a second call on the object a first call returned from
    returns the same result and leaves the object as it is. *)
Theorem get_excel_diff_by_position_can_be_repeated
    (self self' : t) (r : list (string * sheet_diff)) :
  index_name self = "_index_" ->
  NoDup (map fst (old_excel self)) ->
  NoDup (map fst (new_excel self)) ->
  get_excel_diff self = (self', Ok r) ->
  get_excel_diff self' = (self', Ok r).
Proof.
  intros Hidx Ho Hn H. unfold get_excel_diff in *.
  destruct (compare_sheets_frame (map fst (old_excel self)) [] self)
    as (C & No & Nn & _).
  rewrite H in C, No, Nn. cbn [fst] in C, No, Nn.
  destruct (@compare_sheets_ok _ _ _ _ _ Ho H) as (ds & -> & Hnames & Hds).
  rewrite No, <- Hnames. apply compare_sheets_fixed.
  intros s d Hin.
  destruct (Hds _ _ Hin) as (o & n & o1 & n1 & A & B & Ko & Kn & E & F & G).
  assert (Hi' : index_name self' = "_index_")
    by (rewrite (config_index_name C); exact Hidx).
  rewrite (@key_frame_by_position self o Hidx) in Ko.
  rewrite (@key_frame_by_position self n Hidx) in Kn.
  injection Ko as <-. injection Kn as <-.
  set (o1 := set_names "_index_" o) in *. set (n1 := set_names "_index_" n) in *.
  destruct (reconciled_index self o1 n1) as (_ & _ & I1 & I2).
  pose proof (reconcile_twice self o1 n1) as T. cbv zeta in T.
  rewrite get_sheet_diff_eq in E. cbn [snd] in E.
  set (p := delete_ignored_and_conflicting_cols self o1 n1) in *.
  unfold sheet_step.
  rewrite F, G, (@key_frame_by_position self' (fst p) Hi'),
          (@key_frame_by_position self' (snd p) Hi').
  cbv beta iota zeta.
  rewrite (@set_names_same "_index_" (fst p) I1),
          (@set_names_same "_index_" (snd p) I2).
  rewrite (@get_sheet_diff_config self' self (fst p) (snd p) C).
  rewrite get_sheet_diff_eq, T. cbn [fst snd]. rewrite E.
  rewrite (@store_same s (fst p) (old_excel self')),
          (@store_same s (snd p) (new_excel self'));
    try assumption; try (rewrite ?No, ?Nn; assumption).
  now rewrite with_same.
Qed.

Lemma get_excel_diff_by_position_can_be_repeated_witness :
  snd (get_excel_diff (by_position book_A_B book_B_A)) = Ok diffs_by_position
  /\ get_excel_diff (fst (get_excel_diff (by_position book_A_B book_B_A)))
     = (fst (get_excel_diff (by_position book_A_B book_B_A)),
        Ok diffs_by_position).
Proof.
  split; [reflexivity |].
  apply (@get_excel_diff_by_position_can_be_repeated
           (by_position book_A_B book_B_A) _ _ eq_refl).
  - simpl. repeat constructor; simpl; intros H;
      repeat (destruct H as [H | H]; try discriminate); exact H.
  - simpl. repeat constructor; simpl; intros H;
      repeat (destruct H as [H | H]; try discriminate); exact H.
  - reflexivity.
Defined.

(** ** A missing key column *)

Section MissingKey.

Variable name : string.
Hypothesis explicit_key : String.eqb name "_index_" = false.

Lemma sheet_step_missing_key (s : string) (self : t) (o : DataFrame string) :
  index_name self = name ->
  lookup s (old_excel self) = Some o ->
  (~ In name (df_columns o)
   \/ exists n, lookup s (new_excel self) = Some n /\ ~ In name (df_columns n)) ->
  exists e, snd (sheet_step s self) = Raise e.
Proof.
  intros Hname Ho Hmiss. unfold sheet_step. rewrite Ho.
  rewrite (@key_frame_explicit name explicit_key self o Hname).
  destruct Hmiss as [Hmiss | (n & Hn & Hmiss)].
  - rewrite (@set_index_raises name o Hmiss). simpl. eauto.
  - destruct (set_index name o) as [o1 | e]; [| simpl; eauto].
    cbv zeta. rewrite Hn.
    rewrite (@key_frame_explicit name explicit_key self n Hname).
    rewrite (@set_index_raises name n Hmiss). simpl. eauto.
Qed.

Lemma compare_sheets_missing_key (names : list string)
    (acc : list (string * sheet_diff)) (self : t) (s : string)
    (o : DataFrame string) :
  NoDup names -> In s names ->
  index_name self = name ->
  lookup s (old_excel self) = Some o ->
  (~ In name (df_columns o)
   \/ exists n, lookup s (new_excel self) = Some n /\ ~ In name (df_columns n)) ->
  exists e, snd (compare_sheets names acc self) = Raise e.
Proof.
  revert acc self. induction names as [| s0 rest IH];
    intros acc self Hnd Hin Hname Ho Hmiss; [destruct Hin |].
  rewrite compare_sheets_cons.
  apply NoDup_cons_iff in Hnd. destruct Hnd as [Hs0 Hrest].
  destruct (sheet_step_frame s0 self) as (C & _ & _ & F).
  destruct (sheet_step s0 self) as [self1 [d | e]] eqn:Es; cbn [fst] in *;
    [| simpl; eauto].
  destruct Hin as [Heq | Hin].
  - rewrite Heq in Es.
    destruct (@sheet_step_missing_key s self o Hname Ho Hmiss) as [e He].
    rewrite Es in He. discriminate.
  - assert (Hne : s <> s0) by (intros Heq; rewrite Heq in Hin; contradiction).
    destruct (F s Hne) as [Fo Fn].
    apply IH; try assumption.
    + rewrite (config_index_name C). exact Hname.
    + now rewrite Fo.
    + destruct Hmiss as [Hmiss | (n & Hn & Hmiss)]; [now left | right].
      exists n. now rewrite Fn.
Qed.

End MissingKey.

(** X8.  With an explicit key column, [get_excel_diff] raises as soon as
    one sheet of the old workbook, or its namesake in the new workbook,
    has no column of that name. *)
Theorem missing_key_column_raises
    (self : t) (s : string) (o : DataFrame string) :
  index_name self <> "_index_" ->
  NoDup (map fst (old_excel self)) ->
  lookup s (old_excel self) = Some o ->
  (~ In (index_name self) (df_columns o)
   \/ exists n, lookup s (new_excel self) = Some n
                /\ ~ In (index_name self) (df_columns n)) ->
  exists e, snd (get_excel_diff self) = Raise e.
Proof.
  intros Hkey Hnd Ho Hmiss. apply String.eqb_neq in Hkey.
  unfold get_excel_diff.
  apply (@compare_sheets_missing_key (index_name self) Hkey
           (map fst (old_excel self)) [] self s o); try assumption;
    try reflexivity.
  apply in_map_iff. exists (s, o). split; [reflexivity |].
  now apply lookup_In.
Qed.

Lemma missing_key_column_raises_witness :
  NoDup (map fst book_A)
  /\ ~ In "id" (df_columns sheet_no_id)
  /\ exists e, snd (get_excel_diff (session None book_A [("A", sheet_no_id)]))
               = Raise e.
Proof.
  assert (N : NoDup (map fst book_A)) by (repeat constructor; simpl; tauto).
  assert (M : ~ In "id" (df_columns sheet_no_id))
    by (simpl; intros [H | []]; discriminate).
  split; [exact N |]. split; [exact M |].
  apply (@missing_key_column_raises
           (session None book_A [("A", sheet_no_id)]) "A" (sheet [(1, "a")]%Z)).
  - discriminate.
  - exact N.
  - reflexivity.
  - right. exists sheet_no_id. split; [reflexivity | exact M].
Defined.

(** X9.  What such a failure leaves behind, at the first sheet: when the
    old frame lacks the key column, [self] is as before the call; when
    only the new frame lacks it, the old frame of that sheet has already
    been re-indexed by the key. *)
Theorem missing_key_column_at_the_first_sheet
    (self : t) (s : string) (o : DataFrame string) (rest : workbook) :
  index_name self <> "_index_" ->
  old_excel self = (s, o) :: rest ->
  (~ In (index_name self) (df_columns o) ->
   get_excel_diff self = (self, Raise (KeyError (Str (index_name self)))))
  /\ (forall o1 n,
        set_index (index_name self) o = Ok o1 ->
        lookup s (new_excel self) = Some n ->
        ~ In (index_name self) (df_columns n) ->
        get_excel_diff self
        = (with_old ((s, o1) :: store s o1 rest) self,
           Raise (KeyError (Str (index_name self))))).
Proof.
  intros Hkey Hold. apply String.eqb_neq in Hkey.
  assert (Ho : lookup s (old_excel self) = Some o)
    by (rewrite Hold; simpl; now rewrite String.eqb_refl).
  split.
  - intros Hmiss. unfold get_excel_diff. rewrite Hold. cbn [map fst].
    rewrite compare_sheets_cons. unfold sheet_step. rewrite Ho.
    rewrite (@key_frame_explicit _ Hkey self o eq_refl).
    now rewrite (@set_index_raises _ o Hmiss).
  - intros o1 n Ho1 Hn Hmiss. unfold get_excel_diff. rewrite Hold at 1.
    cbn [map fst]. rewrite compare_sheets_cons. unfold sheet_step. rewrite Ho.
    rewrite (@key_frame_explicit _ Hkey self o eq_refl), Ho1. cbv zeta.
    rewrite Hn, (@key_frame_explicit _ Hkey self n eq_refl).
    rewrite (@set_index_raises _ n Hmiss).
    rewrite Hold. simpl. now rewrite String.eqb_refl.
Qed.

Lemma missing_key_column_at_the_first_sheet_witness :
  lookup "A" (old_excel (fst (get_excel_diff
                                (session None book_A [("A", sheet_no_id)]))))
  = Some (keyed [(1, "a")]%Z)
  /\ snd (get_excel_diff (session None book_A [("A", sheet_no_id)]))
     = Raise (KeyError (Str "id")).
Proof.
  pose proof (proj2 (@missing_key_column_at_the_first_sheet
                       (session None book_A [("A", sheet_no_id)])
                       "A" (sheet [(1, "a")]%Z) []
                       ltac:(discriminate) eq_refl)
                    (keyed [(1, "a")]%Z) sheet_no_id eq_refl eq_refl
                    ltac:(simpl; intros [H | []]; discriminate)) as E.
  rewrite E. split; reflexivity.
Defined.

(** ** What a call never changes *)

Section Shape.

Lemma same_shape_refl (wb : workbook) : same_shape wb wb.
Proof. induction wb; constructor; [now split | assumption]. Qed.

Lemma same_shape_trans (a b c : workbook) :
  same_shape a b -> same_shape b c -> same_shape a c.
Proof.
  intros Hab. revert c. induction Hab as [| x y a b [H1 H2] _ IH];
    intros c Hbc; inversion Hbc as [| ? z ? c' [H3 H4] Hrest]; subst;
    constructor; [split; congruence | now apply IH].
Qed.

Lemma same_shape_store (s : string) (df v : DataFrame string) (wb : workbook) :
  NoDup (map fst wb) -> lookup s wb = Some df ->
  List.length (df_rows df) = List.length (df_rows v) ->
  same_shape wb (store s v wb).
Proof.
  intros Hnd Hl Hlen. induction wb as [| [n d] wb IH]; [constructor |].
  simpl in *. apply NoDup_cons_iff in Hnd. destruct Hnd as [Hn Hrest].
  destruct (String.eqb n s) eqn:E.
  - apply String.eqb_eq in E. subst n. injection Hl as ->.
    constructor; [now split |].
    change (same_shape wb (store s v wb)).
    rewrite store_absent by exact Hn. apply same_shape_refl.
  - constructor; [now split | now apply IH].
Qed.

Lemma key_frame_rows (self : t) (df df1 : DataFrame string) :
  key_frame self df = Ok df1 ->
  List.length (df_rows df1) = List.length (df_rows df).
Proof.
  unfold key_frame, set_index.
  destruct (String.eqb (index_name self) "_index_").
  - intros H. now injection H as <-.
  - destruct (index_of (index_name self) (df_columns df)); [| discriminate].
    intros H. injection H as <-. simpl. apply length_map.
Qed.

Lemma reconciled_rows (self : t) (df1 df2 : DataFrame string) :
  let p := delete_ignored_and_conflicting_cols self df1 df2 in
  List.length (df_rows (fst p)) = List.length (df_rows df1)
  /\ List.length (df_rows (snd p)) = List.length (df_rows df2).
Proof.
  unfold delete_ignored_and_conflicting_cols, drop. simpl.
  now rewrite !length_map.
Qed.

Lemma sheet_step_shape (s : string) (self : t) :
  NoDup (map fst (old_excel self)) -> NoDup (map fst (new_excel self)) ->
  same_shape (old_excel self) (old_excel (fst (sheet_step s self)))
  /\ same_shape (new_excel self) (new_excel (fst (sheet_step s self))).
Proof.
  intros Ho Hn. unfold sheet_step.
  destruct (lookup s (old_excel self)) as [o |] eqn:Eo;
    [| split; apply same_shape_refl].
  destruct (key_frame self o) as [o1 | e] eqn:Ko;
    [| split; apply same_shape_refl].
  pose proof (key_frame_rows _ _ Ko) as Ro. cbv zeta.
  destruct (lookup s (new_excel self)) as [n |] eqn:En.
  - destruct (key_frame self n) as [n1 | e] eqn:Kn; cbn [fst];
      unfold with_old, with_new; cbn [old_excel new_excel].
    + pose proof (key_frame_rows _ _ Kn) as Rn.
      rewrite get_sheet_diff_eq. cbn [fst snd].
      destruct (reconciled_rows self o1 n1) as [R1 R2].
      split; eapply same_shape_store; eauto; congruence.
    + split; [| apply same_shape_refl].
      eapply same_shape_store; eauto.
  - cbn [fst]. unfold with_old. cbn [old_excel new_excel].
    split; [| apply same_shape_refl].
    eapply same_shape_store; eauto.
Qed.

Lemma same_shape_names (a b : workbook) :
  same_shape a b -> map fst a = map fst b.
Proof.
  induction 1 as [| x y a b [H _] _ IH]; simpl; [reflexivity | congruence].
Qed.

Lemma compare_sheets_shape (names : list string)
    (acc : list (string * sheet_diff)) (self : t) :
  NoDup (map fst (old_excel self)) -> NoDup (map fst (new_excel self)) ->
  same_shape (old_excel self) (old_excel (fst (compare_sheets names acc self)))
  /\ same_shape (new_excel self)
                (new_excel (fst (compare_sheets names acc self))).
Proof.
  revert acc self. induction names as [| s rest IH]; intros acc self Ho Hn.
  - simpl. split; apply same_shape_refl.
  - rewrite compare_sheets_cons.
    destruct (sheet_step_shape s self Ho Hn) as [So Sn].
    destruct (sheet_step s self) as [self1 [d | e]]; cbn [fst] in *;
      [| now split].
    destruct (IH (acc ++ [(s, d)]) self1) as [So' Sn'].
    + now rewrite <- (same_shape_names So).
    + now rewrite <- (same_shape_names Sn).
    + split; eapply same_shape_trans; eauto.
Qed.

End Shape.

(** X10.  Whether it returns or raises, [get_excel_diff] leaves the
    configuration of [self] as it is and, in both workbooks, the same
    sheets under the same names in the same order, each with as many rows
    as before: it only re-indexes frames and removes columns. *)
Theorem get_excel_diff_keeps_sheets_and_rows (self : t) :
  NoDup (map fst (old_excel self)) ->
  NoDup (map fst (new_excel self)) ->
  config (fst (get_excel_diff self)) = config self
  /\ same_shape (old_excel self) (old_excel (fst (get_excel_diff self)))
  /\ same_shape (new_excel self) (new_excel (fst (get_excel_diff self))).
Proof.
  intros Ho Hn. unfold get_excel_diff.
  destruct (compare_sheets_frame (map fst (old_excel self)) [] self) as (C & _).
  split; [exact C |]. now apply compare_sheets_shape.
Qed.

Lemma get_excel_diff_keeps_sheets_and_rows_witness :
  NoDup (map fst book_A_B) /\ NoDup (map fst book_B_A)
  /\ same_shape book_A_B
       (old_excel (fst (get_excel_diff (session None book_A_B book_B_A)))).
Proof.
  assert (N1 : NoDup (map fst book_A_B)).
  { simpl. repeat constructor; simpl; intros H;
      repeat (destruct H as [H | H]; try discriminate); exact H. }
  assert (N2 : NoDup (map fst book_B_A)).
  { simpl. repeat constructor; simpl; intros H;
      repeat (destruct H as [H | H]; try discriminate); exact H. }
  split; [exact N1 |]. split; [exact N2 |].
  exact (proj1 (proj2 (get_excel_diff_keeps_sheets_and_rows
                         (session None book_A_B book_B_A) N1 N2))).
Defined.

(** * Properties of the report *)

Import Xlsxwriter.

Section Report.

Variable rows_written : table -> nat.

Lemma df_to_excel_effect (df : table) (df_title : string) (ws : worksheet) :
  ws_name (df_to_excel rows_written df df_title ws) = ws_name ws
  /\ ws_writes (df_to_excel rows_written df df_title ws)
     = ws_writes ws ++ [write_string (next_row ws) 0 df_title;
                        to_excel (next_row ws + 1) df]
  /\ next_row (df_to_excel rows_written df df_title ws)
     = next_row ws + 1 + rows_written df + 1.
Proof.
  unfold df_to_excel, next_row. simpl.
  split; [reflexivity |]. split; [reflexivity |].
  destruct (rows_written df) as [| h]; simpl; lia.
Qed.

(** The loop of [sheet_diff_to_excel] from any worksheet. *)
Lemma write_sections (entries : list (string * table)) (ws : worksheet) :
  let ws' :=
    fold_left
      (fun ws (entry : string * table) =>
         if negb (table_empty (snd entry))
         then df_to_excel rows_written (snd entry) (title (fst entry)) ws
         else ws)
      entries ws in
  ws_name ws' = ws_name ws
  /\ ws_writes ws'
     = ws_writes ws
       ++ layout rows_written (next_row ws)
            (map (fun e => (title (fst e), snd e))
                 (filter (fun e => negb (table_empty (snd e))) entries)).
Proof.
  revert ws. induction entries as [| [key t] rest IH]; intros ws.
  - simpl. now rewrite app_nil_r.
  - cbn [fold_left fst snd filter].
    destruct (negb (table_empty t)); [| apply IH].
    destruct (df_to_excel_effect t (title key) ws) as (N & W & R).
    destruct (IH (df_to_excel rows_written t (title key) ws)) as [N' W'].
    cbv zeta. rewrite N', W', N, W, R. split; [reflexivity |].
    cbn [map layout fst snd]. now rewrite <- app_assoc.
Qed.

End Report.

(** X11.  [sheet_diff_to_excel] adds one worksheet, named after the
    sheet, after those already in the book.  The worksheet receives the
    tables that are not empty, in the order changed, added, deleted, under
    the titles "Changed", "Added" and "Deleted": the first title in row 0,
    each table from the row below its title, and each further title two
    rows below the last row of the table before it. *)
Theorem sheet_diff_to_excel_layout
    (rows_written : table -> nat) (sheet_dict : sheet_diff)
    (sheet_name : string) (book : list worksheet) :
  exists ws,
    sheet_diff_to_excel rows_written sheet_dict sheet_name book = book ++ [ws]
    /\ ws_name ws = sheet_name
    /\ ws_writes ws = layout rows_written 0 (sections sheet_dict).
Proof.
  unfold sheet_diff_to_excel. eexists. split; [reflexivity |].
  destruct (write_sections rows_written (items sheet_dict)
              (mkSheet sheet_name None [])) as [N W].
  cbv zeta in N, W. rewrite N, W. split; [reflexivity |].
  unfold sections, titled_tables, items. cbn [filter fst snd ws_writes app].
  unfold next_row. cbn [dim_rowmax].
  destruct (table_empty (Split (changed sheet_dict)));
    destruct (table_empty (Whole (added sheet_dict)));
    destruct (table_empty (Whole (deleted sheet_dict))); reflexivity.
Qed.

Section Book.

Variable rows_written : table -> nat.

Lemma sheet_diff_to_excel_written (d : sheet_diff) (sheet_name : string)
    (book : list worksheet) :
  map written (sheet_diff_to_excel rows_written d sheet_name book)
  = map written book ++ [(sheet_name, layout rows_written 0 (sections d))].
Proof.
  unfold sheet_diff_to_excel. rewrite map_app. f_equal. cbn [map].
  destruct (write_sections rows_written (items d) (mkSheet sheet_name None []))
    as [N W].
  cbv zeta in N, W. unfold written. rewrite N, W.
  unfold sections, titled_tables, items. cbn [filter fst snd ws_writes app].
  unfold next_row. cbn [dim_rowmax ws_name].
  destruct (table_empty (Split (changed d)));
    destruct (table_empty (Whole (added d)));
    destruct (table_empty (Whole (deleted d))); reflexivity.
Qed.

Lemma all_empty_has_difference (d : sheet_diff) :
  negb (forallb (fun e : string * table => table_empty (snd e)) (items d))
  = has_difference d.
Proof.
  unfold has_difference, items. simpl.
  now destruct (df_empty (changed d)), (df_empty (added d)),
               (df_empty (deleted d)).
Qed.

(** The loop of [write_to_excel] from any book. *)
Lemma write_sheets (excel_diff : list (string * sheet_diff))
    (book : list worksheet) :
  map written
      (fold_left
         (fun book (entry : string * sheet_diff) =>
            if negb (forallb (fun e : string * table => table_empty (snd e))
                             (items (snd entry)))
            then sheet_diff_to_excel rows_written (snd entry) (fst entry) book
            else book)
         excel_diff book)
  = map written book
    ++ map (fun e => (fst e, layout rows_written 0 (sections (snd e))))
           (filter (fun e => has_difference (snd e)) excel_diff).
Proof.
  revert book. induction excel_diff as [| [s d] rest IH]; intros book.
  - simpl. now rewrite app_nil_r.
  - cbn [fold_left filter fst snd]. rewrite IH, all_empty_has_difference.
    destruct (has_difference d); [| reflexivity].
    rewrite sheet_diff_to_excel_written, <- app_assoc. reflexivity.
Qed.

End Book.

Lemma write_to_excel_body (rows_written : table -> nat) (self : t) :
  (forall self' excel_diff,
     get_excel_diff self = (self', Ok excel_diff) ->
     exists book,
       write_to_excel rows_written self = (self', Ok book)
       /\ map written book
          = map (fun e => (fst e, layout rows_written 0 (sections (snd e))))
                (filter (fun e => has_difference (snd e)) excel_diff))
  /\ (forall self' e,
        get_excel_diff self = (self', Raise e) ->
        write_to_excel rows_written self = (self', Raise e)).
Proof.
  unfold write_to_excel, bind, ret. split.
  - intros self' excel_diff ->. eexists. split; [reflexivity |].
    now rewrite write_sheets.
  - now intros self' e ->.
Qed.

(** X12.  When [get_excel_diff] returns, [write_to_excel] writes one
    worksheet for each sheet whose comparison has a table that is not
    empty, in the order of the old workbook and under the name of the
    sheet, holding the titled tables of that comparison; a sheet without
    difference gets no worksheet.  When [get_excel_diff] raises,
    [write_to_excel] raises the same exception and no worksheet is
    written. *)
Theorem write_to_excel_writes_the_sheets_that_differ
    (rows_written : table -> nat) (self : t) :
  (forall self' excel_diff,
     get_excel_diff self = (self', Ok excel_diff) ->
     exists book,
       write_to_excel rows_written self = (self', Ok book)
       /\ map written book
          = map (fun e => (fst e, layout rows_written 0 (sections (snd e))))
                (filter (fun e => has_difference (snd e)) excel_diff))
  /\ (forall self' e,
        get_excel_diff self = (self', Raise e) ->
        write_to_excel rows_written self = (self', Raise e)).
Proof.
  unfold write_to_excel, bind, ret. split.
  - intros self' excel_diff ->. eexists. split; [reflexivity |].
    now rewrite write_sheets.
  - now intros self' e ->.
Qed.

Lemma write_to_excel_writes_the_sheets_that_differ_witness :
  snd (get_excel_diff (session None book_A_B book_B_A)) = Ok diffs_A_B
  /\ exists book,
       snd (write_to_excel header_and_rows (session None book_A_B book_B_A))
       = Ok book
       /\ map written book
          = [("B", [write_string 0 0 "Changed";
                    to_excel 1 (Split (changed (mkDiff
                      (mkDF (Some "id") [("val", "old"); ("val", "new")]
                            [(Num 5, [Str "x"; Str "y"])]%Z)
                      (mkDF (Some "id") ["val"] [])
                      (mkDF (Some "id") ["val"] []))))])].
Proof.
  split; [reflexivity |].
  destruct (proj1 (write_to_excel_writes_the_sheets_that_differ
                     header_and_rows (session None book_A_B book_B_A))
                  (fst (get_excel_diff (session None book_A_B book_B_A)))
                  diffs_A_B eq_refl) as (book & Hw & Hbook).
  exists book. split; [now rewrite Hw | exact Hbook].
Defined.

(** ** A workbook compared with itself *)

Section SameWorkbook.

(** A keyed frame compared with itself: nothing changed, added or
    deleted, whatever its keys. *)
Lemma same_frame_no_difference (self : t) (df : DataFrame string) :
  df_index_name df = Some (index_name self) ->
  ~ In (index_name self) (df_columns df) ->
  exists r, snd (get_sheet_diff self df df) = Ok r
            /\ has_difference r = false.
Proof.
  intros Hname Hcol. rewrite get_sheet_diff_eq. cbn [snd].
  destruct (reconciled_index self df df) as (_ & _ & No & _).
  destruct (reconciled_columns_incl self df df (index_name self)) as [Co _].
  rewrite <- reconciled_same.
  set (d := fst (delete_ignored_and_conflicting_cols self df df)) in *.
  rewrite Hname in No.
  assert (Hm : merge d d (index_name self)
               = Ok (outer_join (df_index d) (df_index d)))
    by (apply merge_on_index_ok; tauto).
  rewrite (diff_reconciled_eq _ _ _ No No Hm).
  destruct (cell_cmp_cases self (rows_of (in_both d d) d) (rows_of (in_both d d) d))
    as [(_ & _ & c & Hcmp & ->) | [[H | H] _]]; [| now elim H | now elim H].
  apply compare_same in Hcmp. cbn [rbind].
  assert (Hrows : df_rows (fillna (Str "") c) = [])
    by (unfold fillna; simpl; now rewrite Hcmp).
  rewrite add_ref_cols_empty by now apply df_empty_no_rows.
  cbn [rbind]. rewrite in_old_only_same, in_new_only_same.
  eexists. split; [reflexivity |].
  unfold has_difference. cbn [changed added deleted].
  rewrite (df_empty_no_rows _ Hrows). reflexivity.
Qed.

Lemma key_frame_index_name (self : t) (df df1 : DataFrame string) :
  key_frame self df = Ok df1 -> df_index_name df1 = Some (index_name self).
Proof.
  unfold key_frame, set_index.
  destruct (String.eqb (index_name self) "_index_");
    [| destruct (index_of (index_name self) (df_columns df))];
    try discriminate; intros K; now injection K as <-.
Qed.

Lemma sheet_step_same (s : string) (self : t) :
  same_sheet self s ->
  exists d, snd (sheet_step s self) = Ok d /\ has_difference d = false.
Proof.
  intros (df & df1 & Ho & Hn & K & Hcol). unfold sheet_step.
  rewrite Ho, K. cbv zeta. rewrite Hn, K. cbn [snd].
  apply same_frame_no_difference; [| exact Hcol].
  now apply key_frame_index_name with df.
Qed.

Lemma compare_sheets_same (names : list string)
    (acc : list (string * sheet_diff)) (self : t) :
  NoDup names ->
  (forall s, In s names -> same_sheet self s) ->
  exists ds,
    snd (compare_sheets names acc self) = Ok (acc ++ ds)
    /\ filter (fun e => has_difference (snd e)) ds = [].
Proof.
  revert acc self. induction names as [| s rest IH]; intros acc self Hnd Hsame.
  - exists []. simpl. now rewrite app_nil_r.
  - rewrite compare_sheets_cons.
    apply NoDup_cons_iff in Hnd. destruct Hnd as [Hs Hrest].
    destruct (@sheet_step_same s self) as (d & Hd & Hno);
      [apply Hsame; now left |].
    destruct (sheet_step_frame s self) as (C & _ & _ & F).
    destruct (sheet_step s self) as [self1 r]. cbn [fst snd] in *. subst r.
    destruct (IH (acc ++ [(s, d)]) self1 Hrest) as (ds & Hds & Hfil).
    + intros s' Hs'.
      destruct (Hsame s') as (df & df1 & Ho & Hn & K & Hcol); [now right |].
      assert (Hne : s' <> s) by (intros ->; contradiction).
      destruct (F s' Hne) as [Fo Fn].
      exists df, df1. rewrite Fo, Fn, (@key_frame_config self1 self df C).
      rewrite (@config_index_name self1 self C). now repeat split.
    + exists ((s, d) :: ds). rewrite Hds, <- app_assoc. split; [reflexivity |].
      cbn [filter snd]. now rewrite Hno.
Qed.

End SameWorkbook.

(** X13.  Comparing a workbook with itself writes no worksheet: when
    every sheet can be keyed ([key_frame] returns and the key is not also
    a column), [write_to_excel] on a session whose two workbooks are the same
    returns an empty book. *)
Theorem same_workbook_writes_no_worksheet
    (rows_written : table -> nat) (self : t) :
  old_excel self = new_excel self ->
  NoDup (map fst (old_excel self)) ->
  (forall s df, In (s, df) (old_excel self) ->
     exists df1, key_frame self df = Ok df1
                 /\ ~ In (index_name self) (df_columns df1)) ->
  snd (write_to_excel rows_written self) = Ok [].
Proof.
  intros Hsame Hnd Hkey.
  destruct (@compare_sheets_same (map fst (old_excel self)) [] self Hnd)
    as (ds & Hds & Hfil).
  { intros s Hs.
    destruct (lookup s (old_excel self)) as [df |] eqn:Ho;
      [| apply lookup_None in Ho; contradiction].
    destruct (Hkey s df (@lookup_In s df _ Ho)) as (df1 & K & Hcol).
    exists df, df1. rewrite <- Hsame. now repeat split. }
  fold (get_excel_diff self) in Hds. cbn [app] in Hds.
  destruct (get_excel_diff self) as [self' r] eqn:E. cbn [snd] in Hds. subst r.
  destruct (proj1 (write_to_excel_body rows_written self) self' ds E)
    as (book & Hw & Hbook).
  rewrite Hw. cbn [snd]. rewrite Hfil in Hbook. cbn [map] in Hbook.
  destruct book; [reflexivity | discriminate].
Qed.

Lemma same_workbook_writes_no_worksheet_witness :
  NoDup (map fst book_A_B)
  /\ snd (write_to_excel header_and_rows (session None book_A_B book_A_B))
     = Ok [].
Proof.
  assert (N : NoDup (map fst book_A_B)).
  { simpl. repeat constructor; simpl; intros H;
      repeat (destruct H as [H | H]; try discriminate); exact H. }
  split; [exact N |].
  apply (same_workbook_writes_no_worksheet
           header_and_rows (session None book_A_B book_A_B) eq_refl N).
  intros s df [H | [H | []]]; injection H as <- <-;
    (eexists; split; [reflexivity |]);
    simpl; intros [K | []]; discriminate.
Defined.

(** * Properties of [temp_compare] *)

Section TempCompare.

Lemma where_ne_labels (a b : DataFrame string) :
  (exists d, where_ne a b = Ok d)
  <-> df_columns a = df_columns b /\ df_index a = df_index b.
Proof.
  unfold where_ne.
  destruct (list_eqb String.eqb (df_columns a) (df_columns b)) eqn:Ec;
    destruct (list_eqb cell_eqb (df_index a) (df_index b)) eqn:Ei; simpl;
    (split; [intros [c H]; try discriminate | intros [H1 H2]]).
  - split; [apply (list_eqb_eq _ String.eqb_eq) in Ec
           | apply (list_eqb_eq _ cell_eqb_eq) in Ei]; assumption.
  - eauto.
  - apply (list_eqb_eq _ cell_eqb_eq) in H2. congruence.
  - apply (list_eqb_eq _ String.eqb_eq) in H1. congruence.
  - apply (list_eqb_eq _ String.eqb_eq) in H1. congruence.
Qed.

Lemma ne_same (x : cell) : where_ (ne x x) x = NaN.
Proof.
  destruct x; simpl; try reflexivity; unfold cell_eqb;
    match goal with |- context [cell_eq_dec ?a ?a] =>
      destruct (cell_eq_dec a a); [reflexivity | congruence] end.
Qed.

Lemma map2_same_blank (vs : list cell) :
  Forall (fun v => v = NaN) (map2 (fun x y => where_ (ne x y) x) vs vs).
Proof.
  induction vs as [| v vs IH]; simpl; constructor; [apply ne_same | exact IH].
Qed.

Lemma temp_compare_pairs_ok
    (pairs : list ((string * DataFrame string) * (string * DataFrame string))) :
  Forall (fun p => exists d, where_ne (snd (fst p)) (snd (snd p)) = Ok d) pairs ->
  snd (temp_compare_pairs pairs) = Ok tt
  /\ Forall2 (fun p d => where_ne (snd (fst p)) (snd (snd p)) = Ok d)
             pairs (fst (temp_compare_pairs pairs)).
Proof.
  induction 1 as [| [so sn] pairs [d Hd] _ [IH1 IH2]]; simpl.
  - split; [reflexivity | constructor].
  - cbn [fst snd] in Hd. rewrite Hd.
    destruct (temp_compare_pairs pairs) as [printed r]. cbn [fst snd] in *.
    split; [exact IH1 |]. constructor; [exact Hd | exact IH2].
Qed.

End TempCompare.

(** X14.  [temp_compare] pairs the sheets by position, whatever their
    names, and stops at the shorter workbook: when the sheets at the same
    position carry the same labels, it ends normally after printing, for
    each position up to the shorter workbook, the old sheet with the cells
    equal to those of the new sheet blanked. *)
Theorem temp_compare_pairs_sheets_by_position (old_file new_file : workbook) :
  Forall (fun p : (string * DataFrame string) * (string * DataFrame string) =>
            df_columns (snd (fst p)) = df_columns (snd (snd p))
            /\ df_index (snd (fst p)) = df_index (snd (snd p)))
         (combine old_file new_file) ->
  snd (temp_compare old_file new_file) = Ok tt
  /\ List.length (fst (temp_compare old_file new_file))
     = Nat.min (List.length old_file) (List.length new_file)
  /\ forall i sheet_old sheet_new,
       nth_error old_file i = Some sheet_old ->
       nth_error new_file i = Some sheet_new ->
       exists difference,
         nth_error (fst (temp_compare old_file new_file)) i = Some difference
         /\ where_ne (snd sheet_old) (snd sheet_new) = Ok difference.
Proof.
  intros Hlab. unfold temp_compare.
  destruct (@temp_compare_pairs_ok (combine old_file new_file)) as [Hr Hp].
  { eapply Forall_impl; [| exact Hlab]. intros p Hp. now apply where_ne_labels. }
  split; [exact Hr |]. split.
  - rewrite <- (Forall2_length Hp). apply length_combine.
  - intros i so sn Ho Hn.
    assert (Hc : nth_error (combine old_file new_file) i = Some (so, sn)).
    { clear Hlab Hr Hp. revert i new_file Ho Hn.
      induction old_file as [| x l IH]; intros [| i] [| y l'] Ho Hn;
        simpl in *; try discriminate.
      - now injection Ho as ->; injection Hn as ->.
      - now apply IH. }
    clear Ho Hn Hlab Hr. revert Hp i Hc.
    generalize (fst (temp_compare_pairs (combine old_file new_file))) as printed.
    generalize (combine old_file new_file) as pairs.
    intros pairs printed Hp.
    induction Hp as [| p d ps ds Hd _ IH]; intros [| i] Hc;
      try discriminate.
    + injection Hc as ->. exists d. split; [reflexivity | exact Hd].
    + apply (IH i Hc).
Qed.

Lemma temp_compare_pairs_sheets_by_position_witness :
  snd (temp_compare book_A_B book_A) = Ok tt
  /\ List.length (fst (temp_compare book_A_B book_A)) = 1.
Proof.
  assert (H := temp_compare_pairs_sheets_by_position book_A_B book_A).
  destruct H as (H1 & H2 & _).
  - repeat constructor.
  - split; [exact H1 | exact H2].
Defined.

(** X15.  [temp_compare] on a workbook and itself prints one frame per
    sheet and every cell of every frame printed is blank. *)
Theorem temp_compare_with_itself_prints_blank_frames (file : workbook) :
  snd (temp_compare file file) = Ok tt
  /\ List.length (fst (temp_compare file file)) = List.length file
  /\ forall difference r v,
       In difference (fst (temp_compare file file)) ->
       In r (df_rows difference) -> In v (snd r) -> v = NaN.
Proof.
  unfold temp_compare.
  induction file as [| [s df] file (IH1 & IH2 & IH3)]; simpl.
  - split; [reflexivity |]. split; [reflexivity |]. intros d r v [].
  - unfold where_ne at 1 2 3.
    rewrite (proj2 (list_eqb_eq _ String.eqb_eq _ _) eq_refl).
    rewrite (proj2 (list_eqb_eq _ cell_eqb_eq _ _) eq_refl). cbn [andb].
    destruct (temp_compare_pairs (combine file file)) as [printed res].
    cbn [fst snd] in *. split; [exact IH1 |].
    split; [simpl; f_equal; exact IH2 |].
    intros d r v [<- | Hd] Hr Hv; [| now apply (IH3 d r v)].
    cbn [df_rows] in Hr. apply map2_In in Hr.
    destruct Hr as (ra & rb & Hp & ->). apply combine_same in Hp.
    cbn [fst snd] in *. subst rb.
    pose proof (map2_same_blank (snd ra)) as Hall.
    rewrite Forall_forall in Hall. now apply Hall.
Qed.

(** X16.  [temp_compare] raises [ValueError] as soon as two sheets at the
    same position do not carry the same column labels or the same index
    labels. *)
Theorem temp_compare_raises_on_different_labels (old_file new_file : workbook) :
  Exists (fun p : (string * DataFrame string) * (string * DataFrame string) =>
            df_columns (snd (fst p)) <> df_columns (snd (snd p))
            \/ df_index (snd (fst p)) <> df_index (snd (snd p)))
         (combine old_file new_file) ->
  exists msg, snd (temp_compare old_file new_file) = Raise (ValueError msg).
Proof.
  unfold temp_compare.
  induction 1 as [[so sn] pairs Hdiff | [so sn] pairs _ IH]; simpl.
  - destruct (where_ne (snd so) (snd sn)) as [d | e] eqn:E.
    + exfalso. destruct (proj1 (where_ne_labels _ _) (ex_intro _ d E)).
      cbn [fst snd] in Hdiff. tauto.
    + unfold where_ne in E.
      destruct (_ && _) in E; [discriminate |]. injection E as <-.
      simpl. eauto.
  - destruct (where_ne (snd so) (snd sn)) as [d | e] eqn:E.
    + destruct (temp_compare_pairs pairs) as [printed r]. exact IH.
    + unfold where_ne in E.
      destruct (_ && _) in E; [discriminate |]. injection E as <-.
      simpl. eauto.
Qed.

Lemma temp_compare_raises_on_different_labels_witness :
  df_columns (sheet [(1, "a")]%Z) <> df_columns sheet_no_id
  /\ exists msg,
       snd (temp_compare book_A [("A", sheet_no_id)]) = Raise (ValueError msg).
Proof.
  assert (H : df_columns (sheet [(1, "a")]%Z) <> df_columns sheet_no_id)
    by discriminate.
  split; [exact H |].
  apply (temp_compare_raises_on_different_labels book_A [("A", sheet_no_id)]).
  constructor. left. exact H.
Defined.

(** * The cells and columns of [changed] *)

Section ChangedCells.

Lemma select_seq_In {A} (f : nat -> bool) (l : list A) (x : A) (start : nat) :
  In x (select (map f (seq start (List.length l))) l) ->
  exists j, nth_error l j = Some x /\ f (start + j) = true.
Proof.
  unfold select. revert start.
  induction l as [| a l IH]; intros start H; simpl in H; [destruct H |].
  destruct (f start) eqn:E; simpl in H.
  - destruct H as [<- | H].
    + exists 0. split; [reflexivity | now rewrite Nat.add_0_r].
    + destruct (IH (S start) H) as (j & Hj & Hf). exists (S j).
      split; [exact Hj | now rewrite Nat.add_succ_r].
  - destruct (IH (S start) H) as (j & Hj & Hf). exists (S j).
    split; [exact Hj | now rewrite Nat.add_succ_r].
Qed.

Lemma nth_row_mask (ra rb : row) (j : nat) :
  nth j (row_mask ra rb) false = true ->
  exists u v, nth_error (snd ra) j = Some u /\ nth_error (snd rb) j = Some v
              /\ differs u v = true.
Proof.
  unfold row_mask. generalize (snd ra) as xs, (snd rb) as ys. revert j.
  induction j as [| j IH]; intros [| x xs] [| y ys]; simpl;
    try discriminate.
  - intros H. now exists x, y.
  - apply IH.
Qed.

(** A column the comparison keeps has a row in which it differs. *)
Lemma compare_column_source (na nb : string) (a b : DataFrame string)
    (c : DataFrame (string * string)) (col level : string) :
  compare na nb a b = Ok c -> In (col, level) (df_columns c) ->
  exists j ra rb u v,
    nth_error (df_columns a) j = Some col
    /\ In ra (df_rows a) /\ In rb (df_rows b) /\ fst ra = fst rb
    /\ nth_error (snd ra) j = Some u /\ nth_error (snd rb) j = Some v
    /\ differs u v = true.
Proof.
  intros Hc Hin.
  destruct (proj1 (compare_labels na nb a b) (ex_intro _ c Hc)) as [_ Hi].
  unfold compare in Hc.
  destruct (list_eqb String.eqb (df_columns a) (df_columns b)
            && list_eqb cell_eqb (df_index a) (df_index b)); [| discriminate].
  injection Hc as <-. cbn [df_columns] in Hin.
  apply in_flat_map in Hin. destruct Hin as (x & Hx & Hin).
  assert (x = col) as ->
    by (destruct Hin as [Hin | [Hin | []]]; now injection Hin).
  apply select_seq_In in Hx. destruct Hx as (j & Hj & Hex).
  cbn [Nat.add] in Hex. apply existsb_exists in Hex.
  destruct Hex as (m & Hm & Hnth).
  apply map2_In in Hm. destruct Hm as (ra & rb & Hp & ->).
  destruct (nth_row_mask ra rb j Hnth) as (u & v & Hu & Hv & Hd).
  exists j, ra, rb, u, v.
  split; [exact Hj |]. split; [eapply in_combine_l, Hp |].
  split; [eapply in_combine_r, Hp |].
  split; [eapply combine_same_key; [exact Hi | exact Hp] |].
  now repeat split.
Qed.

Lemma fillna_no_NaN {L} (c : DataFrame L) (r : row) (v : cell) :
  In r (df_rows (fillna (Str "") c)) -> In v (snd r) -> v <> NaN.
Proof.
  unfold fillna. cbn [df_rows]. intros Hr Hv.
  apply in_map_iff in Hr. destruct Hr as (x & <- & _). cbn [snd] in Hv.
  apply in_map_iff in Hv. destruct Hv as (y & <- & _).
  now destruct y.
Qed.

End ChangedCells.

(** X17.  Without reference columns, no cell of [changed] is missing:
    a cell that does not differ, and a missing value that does, are both
    shown as the empty text. *)
Theorem changed_has_no_missing_cell
    (self : t) (df_old df_new : DataFrame string) (r : sheet_diff) :
  other_ref_cols self = None ->
  snd (get_sheet_diff self df_old df_new) = Ok r ->
  forall x v, In x (df_rows (changed r)) -> In v (snd x) -> v <> NaN.
Proof.
  intros Hrefs. rewrite get_sheet_diff_eq. cbn [snd]. intros Hr x v Hx Hv.
  destruct (@diff_reconciled_inv _ _ _ _ Hr)
    as (m & ob & nb & c & _ & _ & _ & Hc & Hch & _).
  unfold add_ref_cols in Hch. rewrite Hrefs in Hch. injection Hch as Hch.
  rewrite <- Hch in Hx.
  destruct (cell_cmp_cases self ob nb) as [(_ & _ & d & _ & Hd) | [_ Hd]];
    rewrite Hd in Hc; [| discriminate].
  injection Hc as <-. now apply (@fillna_no_NaN _ d x v).
Qed.

Lemma changed_has_no_missing_cell_witness :
  snd (get_sheet_diff by_id old_a new_b) = Ok diff_a_b
  /\ Str "a" <> NaN.
Proof.
  split; [reflexivity |].
  apply (@changed_has_no_missing_cell by_id old_a new_b diff_a_b
           eq_refl eq_refl (Num 1, [Str "a"; Str "b"])%Z (Str "a")).
  - simpl. now left.
  - simpl. now left.
Defined.

(** X18.  Every old/new pair of columns that [changed] shows belongs to
    a compared column in which an old row and the new row of the same key
    differ: a column that is equal in all rows present in both frames is
    not shown. *)
Theorem changed_columns_have_a_differing_row
    (self : t) (df_old df_new : DataFrame string) (r : sheet_diff) :
  df_index_name df_old = Some (index_name self) ->
  df_index_name df_new = Some (index_name self) ->
  snd (get_sheet_diff self df_old df_new) = Ok r ->
  let df_old' := fst (fst (get_sheet_diff self df_old df_new)) in
  let df_new' := snd (fst (get_sheet_diff self df_old df_new)) in
  forall col level,
    In (col, level) (df_columns (changed r)) -> level <> "-" ->
    exists j ro rn u v,
      nth_error (df_columns df_old') j = Some col
      /\ In ro (df_rows df_old') /\ In rn (df_rows df_new')
      /\ fst ro = fst rn
      /\ nth_error (snd ro) j = Some u /\ nth_error (snd rn) j = Some v
      /\ differs u v = true.
Proof.
  intros Ho Hn. rewrite get_sheet_diff_eq. cbn [fst snd]. intros Hr.
  destruct (reconciled_index self df_old df_new) as (Io & In_ & No & Nn).
  set (o := fst (delete_ignored_and_conflicting_cols self df_old df_new)) in *.
  set (n := snd (delete_ignored_and_conflicting_cols self df_old df_new)) in *.
  rewrite Ho in No. rewrite Hn in Nn.
  destruct (diff_reconciled_merged _ _ _ Hr) as [m Hm].
  rewrite (diff_reconciled_eq _ _ _ No Nn Hm) in Hr.
  set (X := rows_of (in_both o n) o) in *.
  set (Y := rows_of (in_both o n) n) in *.
  destruct (cell_cmp_cases self X Y) as [(_ & _ & c & Hcmp & Hcc) | [_ Hcc]];
    rewrite Hcc in Hr; cbn [rbind] in Hr; [| discriminate].
  destruct (add_ref_cols self X (fillna (Str "") c)) as [c' | e] eqn:Hrefs;
    cbn [rbind] in Hr; [| discriminate].
  injection Hr as <-. cbn [changed]. intros col level Hin Hlevel.
  assert (Hc : In (col, level) (df_columns c)).
  { unfold add_ref_cols in Hrefs.
    destruct (other_ref_cols self) as [[| c0 cs] |];
      try (injection Hrefs as <-; exact Hin).
    destruct (negb (df_empty (fillna (Str "") c)));
      [| injection Hrefs as <-; exact Hin].
    destruct (loc2 _ (c0 :: cs) X) as [df_ref | e]; cbn [rbind] in Hrefs;
      [| discriminate].
    unfold concat_columns in Hrefs.
    match type of Hrefs with
    | (if ?b then _ else _) = _ => destruct b; [| discriminate]
    end.
    injection Hrefs as <-.
    change (In (col, level)
               (map (fun ref_col : string => (ref_col, "-")) (c0 :: cs)
                ++ df_columns c)) in Hin.
    apply in_app_or in Hin. destruct Hin as [Hin | Hin]; [| exact Hin].
    apply in_map_iff in Hin. destruct Hin as (y & Hy & _).
    injection Hy as _ Hy. congruence. }
  destruct (@compare_column_source _ _ X Y c col level Hcmp Hc)
    as (j & ra & rb & u & v & Hj & Ha & Hb & Hk & Hu & Hv & Hd).
  apply rows_of_In in Ha, Hb.
  exists j, ra, rb, u, v. repeat split; tauto.
Qed.

Lemma changed_columns_have_a_differing_row_witness :
  snd (get_sheet_diff by_id old_a new_b) = Ok diff_a_b
  /\ exists j ro rn u v,
       nth_error (df_columns old_a) j = Some "val"
       /\ In ro (df_rows old_a) /\ In rn (df_rows new_b)
       /\ fst ro = fst rn
       /\ nth_error (snd ro) j = Some u /\ nth_error (snd rn) j = Some v
       /\ differs u v = true.
Proof.
  split; [reflexivity |].
  apply (@changed_columns_have_a_differing_row by_id old_a new_b diff_a_b
           eq_refl eq_refl eq_refl "val" "old").
  - simpl. now left.
  - discriminate.
Defined.
